(** * Synthetic user-record generators: a shallow embedding

    The repository holds two scripts that synthesise user records and
    write them to a CSV file:

    - [data/generators/generate_test_users.py] (module [TestUsers] below,
      "variant B" of the specification);
    - [data/generate_users.py] (module [Users] below, "variant A").

    Python strings are modelled as [string] (the names the default Faker
    locale produces are ASCII), Python integers as [Z] or [nat], the set
    [usernames_used] as a [gset string], the dictionary [GROUPS] as a
    [gmap string (list string)].  The two sources of pseudo-random data,
    the Faker instance and the [random] module, are explicit streams read
    through a cursor; the output file lives in an explicit file system. *)

From Stdlib Require Import ZArith Ascii String Decimal DecimalString DecimalNat Lia.
From stdpp Require Import gmap strings list sorting.

Local Open Scope Z_scope.

(** ** Outcomes of a Python computation *)

Inductive exn : Type :=
  | IndexError
  | KeyError
  | ValueError
  | OverflowError.

(** [OutOfFuel] is not a Python outcome: it is what the model of a [while]
    loop answers when its fuel does not suffice.  The theorems show that
    it never occurs. *)
Inductive res (A : Type) : Type :=
  | Ok (a : A)
  | Raise (e : exn)
  | OutOfFuel.

Arguments Ok {A} a.
Arguments Raise {A} e.
Arguments OutOfFuel {A}.

Definition res_bind {A B : Type} (r : res A) (k : A -> res B) : res B :=
  match r with
  | Ok a => k a
  | Raise e => Raise e
  | OutOfFuel => OutOfFuel
  end.

Definition of_option {A : Type} (e : exn) (o : option A) : res A :=
  match o with
  | Some a => Ok a
  | None => Raise e
  end.

(** ** Python string operations *)

Module Py.

Definition is_upper (c : ascii) : bool :=
  let n := nat_of_ascii c in (65 <=? n)%nat && (n <=? 90)%nat.

Definition is_lower (c : ascii) : bool :=
  let n := nat_of_ascii c in (97 <=? n)%nat && (n <=? 122)%nat.

Definition is_digit (c : ascii) : bool :=
  let n := nat_of_ascii c in (48 <=? n)%nat && (n <=? 57)%nat.

(** [str.isspace] on an ASCII character: tab, line feed, vertical tab,
    form feed, carriage return, the four separators 28..31 and space. *)
Definition isspace (c : ascii) : bool :=
  let n := nat_of_ascii c in
  ((9 <=? n)%nat && (n <=? 13)%nat) || ((28 <=? n)%nat && (n <=? 32)%nat).

Definition lower_char (c : ascii) : ascii :=
  if is_upper c then ascii_of_nat (nat_of_ascii c + 32) else c.

(** [s.lower()] *)
Fixpoint lower (s : string) : string :=
  match s with
  | EmptyString => EmptyString
  | String c s' => String (lower_char c) (lower s')
  end.

Definition flush (cur : string) : list string :=
  match cur with
  | EmptyString => []
  | _ => [cur]
  end.

(** [s.split()]: the maximal runs of characters that are not white
    space; [cur] is the run being read. *)
Fixpoint split_go (cur : string) (s : string) : list string :=
  match s with
  | EmptyString => flush cur
  | String c s' =>
      if isspace c then flush cur ++ split_go EmptyString s'
      else split_go (cur +:+ String c EmptyString) s'
  end.

Definition split (s : string) : list string := split_go EmptyString s.

(** [s.replace(c, "")] for a one-character [c] *)
Fixpoint remove_char (c : ascii) (s : string) : string :=
  match s with
  | EmptyString => EmptyString
  | String a s' =>
      if Ascii.eqb a c then remove_char c s' else String a (remove_char c s')
  end.

(** [s[0]] *)
Definition first_char (s : string) : res ascii :=
  match s with
  | EmptyString => Raise IndexError
  | String c _ => Ok c
  end.

(** [l[0]] and [l[-1]] *)
Definition first {A : Type} (l : list A) : res A := of_option IndexError (head l).
Definition last {A : Type} (l : list A) : res A := of_option IndexError (list.last l).

(** [str(n)] for a natural number: its decimal numeral. *)
Definition str (n : nat) : string := NilEmpty.string_of_uint (Nat.to_uint n).

(** [sep.join(l)] *)
Fixpoint join (sep : string) (l : list string) : string :=
  match l with
  | [] => EmptyString
  | [x] => x
  | x :: l' => x +:+ sep +:+ join sep l'
  end.

(** [all(p(c) for c in s)] *)
Fixpoint all_chars (p : ascii -> bool) (s : string) : bool :=
  match s with
  | EmptyString => true
  | String c s' => p c && all_chars p s'
  end.

(** [any(p(c) for c in s)] *)
Fixpoint any_char (p : ascii -> bool) (s : string) : bool :=
  match s with
  | EmptyString => false
  | String c s' => p c || any_char p s'
  end.

End Py.

(** ** The random module

    Every function of [random] the scripts call draws through
    [_randbelow n], which answers a number below [n].  The generator is
    seeded by the operating system, so the model reads an arbitrary
    stream of raw draws and reduces each draw modulo [n]. *)

Module Random.

Record state : Type := { draws : nat -> nat; pos : nat }.

Definition randbelow (n : nat) (g : state) : nat * state :=
  (draws g (pos g) mod n, {| draws := draws g; pos := S (pos g) |})%nat.

(** [random.randint(a, b)] is [a + _randbelow(b - a + 1)] and raises
    [ValueError] on an empty range. *)
Definition randint (a b : nat) (g : state) : res nat * state :=
  if (b <? a)%nat then (Raise ValueError, g)
  else let '(r, g') := randbelow (b - a + 1) g in (Ok (a + r)%nat, g').

(** [random.choice(seq)] is [seq[_randbelow(len(seq))]]. *)
Definition choice {A : Type} (seq : list A) (g : state) : res A * state :=
  match seq with
  | [] => (Raise IndexError, g)
  | _ => let '(r, g') := randbelow (length seq) g in
         (of_option IndexError (seq !! r), g')
  end.

(** The selection loop of [random.sample] over a small population:
    [for i in range(k): j = randbelow(n - i); result[i] = pool[j];
    pool[j] = pool[n - i - 1]]; [m] is [n - i]. *)
Fixpoint sample_loop {A : Type} (k : nat) (m : nat) (pool : list A)
    (g : state) : list A * state :=
  match k with
  | O => ([], g)
  | S k' =>
      let '(j, g1) := randbelow m g in
      match pool !! j, pool !! (m - 1)%nat with
      | Some x, Some y =>
          let '(rest, g2) := sample_loop k' (m - 1)%nat (<[j := y]> pool) g1 in
          (x :: rest, g2)
      | _, _ => ([], g1)
      end
  end.

(** [random.sample(population, k)] *)
Definition sample {A : Type} (population : list A) (k : nat) (g : state)
    : res (list A) * state :=
  if (length population <? k)%nat then (Raise ValueError, g)
  else let '(l, g') := sample_loop k (length population) population g in
       (Ok l, g').

End Random.

(** ** Dates

    A [date] is modelled by its proleptic Gregorian ordinal (1 is
    0001-01-01), which is also how CPython's [datetime] adds a
    [timedelta] to it. *)

Module Datetime.

Definition MAXORDINAL : Z := 3652059.

Definition DI400Y : Z := 146097.
Definition DI100Y : Z := 36524.
Definition DI4Y : Z := 1461.

(** [_DAYS_IN_MONTH[month]] and [_DAYS_BEFORE_MONTH[month]]; index 0
    holds the placeholder -1. *)
Definition DAYS_IN_MONTH : list Z :=
  [-1; 31; 28; 31; 30; 31; 30; 31; 31; 30; 31; 30; 31].
Definition DAYS_BEFORE_MONTH : list Z :=
  [-1; 0; 31; 59; 90; 120; 151; 181; 212; 243; 273; 304; 334].

Definition tab (t : list Z) (i : Z) : Z := nth (Z.to_nat i) t (-1).

Definition b2z (b : bool) : Z := if b then 1 else 0.

(** The tail of [_ord2ymd]: month and day from the day [n] of the year
    (0 for January 1st). *)
Definition month_day (leapyear : bool) (n : Z) : Z * Z :=
  let month := Z.shiftr (n + 50) 5 in
  let preceding := tab DAYS_BEFORE_MONTH month + b2z ((2 <? month) && leapyear) in
  if n <? preceding then
    let month := month - 1 in
    let preceding :=
      preceding - (tab DAYS_IN_MONTH month + b2z ((month =? 2) && leapyear)) in
    (month, n - preceding + 1)
  else (month, n - preceding + 1).

(** [_ord2ymd(n)] *)
Definition ord2ymd (n : Z) : Z * Z * Z :=
  let n := n - 1 in
  let n400 := n / DI400Y in
  let n := n mod DI400Y in
  let year := n400 * 400 + 1 in
  let n100 := n / DI100Y in
  let n := n mod DI100Y in
  let n4 := n / DI4Y in
  let n := n mod DI4Y in
  let n1 := n / 365 in
  let n := n mod 365 in
  let year := year + (n100 * 100 + n4 * 4 + n1) in
  if (n1 =? 4) || (n100 =? 4) then (year - 1, 12, 31)
  else
    let leapyear := (n1 =? 3) && (negb (n4 =? 24) || (n100 =? 3)) in
    let '(month, day) := month_day leapyear n in
    (year, month, day).

(** [date + timedelta(days)] *)
Definition add_days (d : Z) (days : Z) : res Z :=
  let o := d + days in
  if (0 <? o) && (o <=? MAXORDINAL) then Ok o else Raise OverflowError.

(** A decimal field padded with zeros to [width] characters ([%02d],
    [%04d]). *)
Fixpoint zeros (n : nat) : string :=
  match n with
  | O => EmptyString
  | S n' => String "0" (zeros n')
  end.

Definition zfill (width : nat) (n : Z) : string :=
  let s := Py.str (Z.to_nat n) in
  zeros (width - String.length s) +:+ s.

(** [d.strftime('%Y-%m-%d')]; the C library prints [%Y] without
    padding, [%m] and [%d] on two digits. *)
Definition strftime_Ymd (d : Z) : string :=
  let '(y, m, dd) := ord2ymd d in
  Py.str (Z.to_nat y) +:+ "-" +:+ zfill 2 m +:+ "-" +:+ zfill 2 dd.

(** [str(d)], that is [d.isoformat()]: ["%04d-%02d-%02d"]. *)
Definition isoformat (d : Z) : string :=
  let '(y, m, dd) := ord2ymd d in
  zfill 4 y +:+ "-" +:+ zfill 2 m +:+ "-" +:+ zfill 2 dd.

End Datetime.

(** ** The Faker instance

    A Faker instance is a deterministic function of its seed and of the
    calls made so far.  The model keeps one call counter and, for every
    provider method, the stream of values the method returns at each
    position of the counter. *)

Module Faker.

Record state : Type := {
  name_at : nat -> string;
  first_name_at : nat -> string;
  last_name_at : nat -> string;
  company_email_at : nat -> string;
  phone_number_at : nat -> string;
  random_number_at : nat -> nat;
  date_draw_at : nat -> nat;
  pos : nat
}.

Definition tick (f : state) : state :=
  {| name_at := name_at f;
     first_name_at := first_name_at f;
     last_name_at := last_name_at f;
     company_email_at := company_email_at f;
     phone_number_at := phone_number_at f;
     random_number_at := random_number_at f;
     date_draw_at := date_draw_at f;
     pos := S (pos f) |}.

Definition provide {A : Type} (stream : state -> nat -> A) (f : state) : A * state :=
  (stream f (pos f), tick f).

Definition name : state -> string * state := provide name_at.
Definition first_name : state -> string * state := provide first_name_at.
Definition last_name : state -> string * state := provide last_name_at.
Definition company_email : state -> string * state := provide company_email_at.
Definition phone_number : state -> string * state := provide phone_number_at.
(** [fake.unique.random_number(digits=6)] *)
Definition unique_random_number : state -> nat * state := provide random_number_at.

(** A relative date: ['today'] or a string of signed numbers, each
    followed by its unit.  Faker's pattern reads [y] as years, [M] as
    months and [m] as minutes: ['+2y'] is two years, ['-2y'] two years
    back and ['+6m'] six minutes. *)
Inductive when : Type :=
  | today
  | rel (years months minutes : Z).

(** [_parse_date_string] counts 365.24 days a year and 30.42 days a
    month; [today + timedelta(...)] then moves by the whole days of the
    sum, rounded down.  The sum is in seconds here. *)
Definition offset_days (years months minutes : Z) : Z :=
  (31556736 * years + 2628288 * months + 60 * minutes) / 86400.

Definition parse_date (now : Z) (w : when) : res Z :=
  match w with
  | today => Ok now
  | rel years months minutes =>
      Datetime.add_days now (offset_days years months minutes)
  end.

(** [fake.date_between(start_date, end_date)]: a date of the inclusive
    range, [now] being [date.today()]. *)
Definition date_between (now : Z) (start_date end_date : when) (f : state)
    : res Z * state :=
  match parse_date now start_date with
  | Ok s =>
      match parse_date now end_date with
      | Ok e =>
          if e <? s then (Raise ValueError, f)
          else let '(r, f') := provide date_draw_at f in
               (Ok (s + Z.of_nat (r mod Z.to_nat (e - s + 1))), f')
      | Raise x => (Raise x, f)
      | OutOfFuel => (OutOfFuel, f)
      end
  | Raise x => (Raise x, f)
  | OutOfFuel => (OutOfFuel, f)
  end.

End Faker.

(** ** The state of a run

    The Faker instance, the [random] module, the date of the day and the
    file system (a CSV file is the list of the rows written to it, a row
    the list of its fields).  The clock does not pass midnight during a
    run, and every path can be opened for writing. *)

Definition row : Type := list string.

Record world : Type := {
  fake : Faker.state;
  rng : Random.state;
  now : Z;
  files : gmap string (list row)
}.

Definition M (A : Type) : Type := world -> res A * world.

Definition ret {A : Type} (a : A) : M A := fun w => (Ok a, w).

Definition bind {A B : Type} (m : M A) (k : A -> M B) : M B :=
  fun w =>
    match m w with
    | (Ok a, w') => k a w'
    | (Raise e, w') => (Raise e, w')
    | (OutOfFuel, w') => (OutOfFuel, w')
    end.

Notation "'let*' x := m 'in' k" := (bind m (fun x => k))
  (at level 10, x pattern, m at level 100, k at level 200).
Notation "m ;; k" := (bind m (fun _ => k))
  (at level 100, k at level 200, right associativity).

Definition lift {A : Type} (r : res A) : M A := fun w => (r, w).

Definition with_fake {A : Type} (f : Faker.state -> A * Faker.state) : M A :=
  fun w =>
    let '(a, f') := f (fake w) in
    (Ok a, {| fake := f'; rng := rng w; now := now w; files := files w |}).

Definition with_fake_res {A : Type} (f : Faker.state -> res A * Faker.state) : M A :=
  fun w =>
    let '(r, f') := f (fake w) in
    (r, {| fake := f'; rng := rng w; now := now w; files := files w |}).

Definition with_rng {A : Type} (f : Random.state -> res A * Random.state) : M A :=
  fun w =>
    let '(r, g') := f (rng w) in
    (r, {| fake := fake w; rng := g'; now := now w; files := files w |}).

Definition set_files (fs : gmap string (list row)) (w : world) : world :=
  {| fake := fake w; rng := rng w; now := now w; files := fs |}.

(** [open(path, 'w')] creates the file or truncates it. *)
Definition open_w (path : string) : M unit :=
  fun w => (Ok tt, set_files (<[path := []]> (files w)) w).

(** [writer.writerow(r)] on the writer of the file at [path]. *)
Definition writerow (path : string) (r : row) : M unit :=
  fun w => (Ok tt, set_files (alter (fun rows => rows ++ [r]) path (files w)) w).

(** ** data/generators/generate_test_users.py *)

Module TestUsers.

Definition DEPARTMENTS : list string :=
  ["IT"; "Sales"; "Marketing"; "Finance"; "HR"; "Operations"; "Legal"].

Definition GROUPS : gmap string (list string) :=
  list_to_map
    [("IT", ["developers"; "sysadmins"; "devops"; "support"]);
     ("Sales", ["sales"; "account_managers"; "business_dev"]);
     ("Marketing", ["marketing"; "content"; "social_media"]);
     ("Finance", ["finance"; "accounting"; "analysts"]);
     ("HR", ["hr"; "recruiters"; "training"]);
     ("Operations", ["operations"; "logistics"; "facilities"]);
     ("Legal", ["legal"; "compliance"])].

Definition generate_username (full_name : string) : res string :=
  let parts := Py.split (Py.lower full_name) in
  res_bind
    (if (2 <=? length parts)%nat then
       res_bind (Py.first parts) (fun p0 =>
       res_bind (Py.first_char p0) (fun c =>
       res_bind (Py.last parts) (fun pl =>
       Ok (String c pl))))
     else Py.first parts)
    (fun username =>
       Ok (Py.remove_char "-" (Py.remove_char "'" username))).

Definition generate_email (username : string) (domain : string) : string :=
  username +:+ "@" +:+ domain.

(** [sorted(l)] on strings, compared by code points. *)
Definition sorted (l : list string) : list string := merge_sort String.le l.

Definition select_groups (department : string) : M string :=
  let* available_groups := lift (of_option KeyError (GROUPS !! department)) in
  let* num_groups :=
    with_rng (Random.randint 1 (Nat.min 2 (length available_groups))) in
  let* selected := with_rng (Random.sample available_groups num_groups) in
  ret (Py.join ";" (sorted selected)).

Definition generate_expiry_date : M string :=
  fun w =>
    (let* expiry :=
       with_fake_res
         (Faker.date_between (now w) (Faker.rel 0 0 6) (Faker.rel 2 0 0)) in
     ret (Datetime.strftime_Ymd expiry)) w.

(** [while f"{username}{suffix}" in usernames_used: suffix += 1] *)
Fixpoint suffix_loop (fuel : nat) (usernames_used : gset string)
    (username : string) (suffix : nat) : res nat :=
  if decide (username +:+ Py.str suffix ∈ usernames_used) then
    match fuel with
    | O => OutOfFuel
    | S fuel' => suffix_loop fuel' usernames_used username (S suffix)
    end
  else Ok suffix.

(** Lines 84-89: the username that is recorded for a candidate. *)
Definition unique_username (usernames_used : gset string) (username : string)
    : res string :=
  if decide (username ∈ usernames_used) then
    res_bind (suffix_loop (size usernames_used) usernames_used username 2)
      (fun suffix => Ok (username +:+ Py.str suffix))
  else Ok username.

Definition header : row :=
  ["username"; "fullname"; "email"; "department"; "groups"; "account_expiry"].

(** The body of [while users_generated < count]. *)
Definition user_step (output_file : string) (usernames_used : gset string)
    : M (gset string) :=
  let* full_name := with_fake Faker.name in
  let* username := lift (generate_username full_name) in
  let* username := lift (unique_username usernames_used username) in
  let usernames_used := {[username]} ∪ usernames_used in
  let* department := with_rng (Random.choice DEPARTMENTS) in
  let* groups := select_groups department in
  let email := generate_email username "techcorp.com" in
  let* expiry := generate_expiry_date in
  writerow output_file [username; full_name; email; department; groups; expiry] ;;
  ret usernames_used.

Fixpoint users_loop (fuel : nat) (count : Z) (output_file : string)
    (usernames_used : gset string) (users_generated : Z) : M unit :=
  if users_generated <? count then
    match fuel with
    | O => lift OutOfFuel
    | S fuel' =>
        let* usernames_used := user_step output_file usernames_used in
        users_loop fuel' count output_file usernames_used (users_generated + 1)
    end
  else ret tt.

(** [generate_users(count, output_file)]; the progress lines and the
    sample printed on standard output are left out. *)
Definition generate_users (count : Z) (output_file : string) : M unit :=
  open_w output_file ;;
  writerow output_file header ;;
  users_loop (Z.to_nat count) count output_file ∅ 0.

(** The module is initialised by [fake = Faker()] and [Faker.seed(42)]:
    the Faker instance is the one its seed determines; the [random]
    module is left as the operating system seeded it. *)
Definition init (seeded : Z -> Faker.state) (g : Random.state) (today : Z)
    (fs : gmap string (list row)) : world :=
  {| fake := seeded 42; rng := g; now := today; files := fs |}.

End TestUsers.

(** ** data/generate_users.py *)

Module Users.

Definition NUM_USERS : nat := 50.
Definition OUTPUT_FILE : string := "test_users.csv".

Definition DEPARTMENTS : list string :=
  ["Engineering"; "Sales"; "Marketing"; "HR"; "Finance"; "Operations"; "IT";
   "Support"].
Definition ROLES : list string :=
  ["Developer"; "Manager"; "Analyst"; "Engineer"; "Specialist"; "Coordinator";
   "Director"].

Definition generate_username (first_name last_name : string) : M string :=
  let* initial := lift (Py.first_char first_name) in
  let formats :=
    [Py.lower first_name +:+ Py.lower last_name;
     Py.lower first_name +:+ "." +:+ Py.lower last_name;
     String (Py.lower_char initial) (Py.lower last_name)] in
  with_rng (Random.choice formats).

Record user : Type := {
  username : string;
  first_name : string;
  last_name : string;
  full_name : string;
  email : string;
  phone : string;
  department : string;
  role : string;
  start_date : Z;
  employee_id : nat
}.

Definition generate_user : M user :=
  let* first_name := with_fake Faker.first_name in
  let* last_name := with_fake Faker.last_name in
  let* username := generate_username first_name last_name in
  let* email := with_fake Faker.company_email in
  let* phone := with_fake Faker.phone_number in
  let* department := with_rng (Random.choice DEPARTMENTS) in
  let* role := with_rng (Random.choice ROLES) in
  let* start_date :=
    (fun w =>
       with_fake_res (Faker.date_between (now w) (Faker.rel (-2) 0 0) Faker.today) w) in
  let* employee_id := with_fake Faker.unique_random_number in
  ret {| username := username;
         first_name := first_name;
         last_name := last_name;
         full_name := first_name +:+ " " +:+ last_name;
         email := email;
         phone := phone;
         department := department;
         role := role;
         start_date := start_date;
         employee_id := employee_id |}.

Definition fieldnames : row :=
  ["username"; "first_name"; "last_name"; "full_name"; "email"; "phone";
   "department"; "role"; "start_date"; "employee_id"].

(** The row [csv.DictWriter.writerow] writes for a user: its fields in
    the order of [fieldnames], each through [str]. *)
Definition user_row (u : user) : row :=
  [username u; first_name u; last_name u; full_name u; email u; phone u;
   department u; role u; Datetime.isoformat (start_date u);
   Py.str (employee_id u)].

(** [for i in range(n): users.append(generate_user())] *)
Fixpoint generate_all (n : nat) (users : list user) : M (list user) :=
  match n with
  | O => ret users
  | S n' =>
      let* user := generate_user in
      generate_all n' (users ++ [user])
  end.

(** [for user in users: writer.writerow(user)] *)
Fixpoint write_all (path : string) (users : list user) : M unit :=
  match users with
  | [] => ret tt
  | u :: users' => writerow path (user_row u) ;; write_all path users'
  end.

(** [main()]; the lines printed on standard output are left out. *)
Definition main : M unit :=
  let* users := generate_all NUM_USERS [] in
  open_w OUTPUT_FILE ;;
  writerow OUTPUT_FILE fieldnames ;;
  write_all OUTPUT_FILE users.

End Users.

(** ** Vocabulary of the specification *)

(** The columns of a row of [generate_test_users.py]. *)
Definition username_of (r : row) : string := nth 0 r EmptyString.
Definition fullname_of (r : row) : string := nth 1 r EmptyString.

(** [re.fullmatch("[a-z]+", s)] *)
Definition matches_base (s : string) : bool :=
  negb (String.eqb s EmptyString) && Py.all_chars Py.is_lower s.

(** The longest prefix of lower-case letters, and what follows it. *)
Fixpoint span_lower (s : string) : string * string :=
  match s with
  | EmptyString => (EmptyString, EmptyString)
  | String c s' =>
      if Py.is_lower c then
        let '(a, b) := span_lower s' in (String c a, b)
      else (EmptyString, s)
  end.

(** [re.fullmatch("[a-z]+D[0-9]*", s)] where [D] is the class [first]:
    no digit is a letter, so the letters of a match are the longest
    prefix of letters. *)
Definition matches_suffixed (first : ascii -> bool) (s : string) : bool :=
  let '(a, b) := span_lower s in
  negb (String.eqb a EmptyString) &&
  match b with
  | EmptyString => false
  | String d ds => first d && Py.all_chars Py.is_digit ds
  end.

(** The class [[2-9]] of the specification and the class [[1-9]]. *)
Definition digit_2_9 (c : ascii) : bool :=
  let n := nat_of_ascii c in (50 <=? n)%nat && (n <=? 57)%nat.
Definition digit_1_9 (c : ascii) : bool :=
  let n := nat_of_ascii c in (49 <=? n)%nat && (n <=? 57)%nat.

(** The characters of a personal name: ASCII letters, apostrophe, hyphen
    and white space. *)
Definition is_letter (c : ascii) : bool := Py.is_upper c || Py.is_lower c.
Definition name_char (c : ascii) : bool :=
  is_letter c || Ascii.eqb c "'" || Ascii.eqb c "-" || Py.isspace c.

(** [s.split(sep)] for a one-character separator. *)
Fixpoint split_on (sep : ascii) (s : string) : list string :=
  match s with
  | EmptyString => [EmptyString]
  | String c s' =>
      if Ascii.eqb c sep then EmptyString :: split_on sep s'
      else match split_on sep s' with
           | [] => [String c EmptyString]
           | t :: ts => String c t :: ts
           end
  end.

(** The shape [YYYY-MM-DD]. *)
Definition iso_shape (s : string) : bool :=
  match s with
  | String y1 (String y2 (String y3 (String y4 (String sep1
      (String m1 (String m2 (String sep2 (String d1 (String d2 EmptyString))))))))) =>
      forallb Py.is_digit [y1; y2; y3; y4; m1; m2; d1; d2] &&
      Ascii.eqb sep1 "-" && Ascii.eqb sep2 "-"
  | _ => false
  end.

(** ** Predicates used by the statements *)

(** What a step that does not write leaves as it was: the file system
    and the day. *)
Definition frame (w w' : world) : Prop :=
  files w' = files w /\ now w' = now w.

(** The row an iteration writes, when it writes one. *)
Definition step_row (used : gset string) (w : world) (r : row) : Prop :=
  let full_name := Faker.name_at (fake w) (Faker.pos (fake w)) in
  exists base u d g e,
    TestUsers.generate_username full_name = Ok base /\
    TestUsers.unique_username used base = Ok u /\
    r = [u; full_name; TestUsers.generate_email u "techcorp.com"; d; g; e].

(** A written username is the candidate of its full name, or the
    candidate followed by the numeral of a suffix from 2 on. *)
Definition derived_username (rw : row) : Prop :=
  exists base, TestUsers.generate_username (fullname_of rw) = Ok base /\
    (username_of rw = base \/
     exists k : nat, (2 <= k)%nat /\ username_of rw = base +:+ Py.str k).

(** The environment in which a run cannot fail: every name the Faker
    instance produces has a word, and the dates of the expiry window
    exist. *)
Definition names_have_words (f : Faker.state) : Prop :=
  forall k, Py.split (Py.lower (Faker.name_at f k)) <> [].

Definition expiry_window_exists (today : Z) : Prop :=
  0 < today <= Datetime.MAXORDINAL - 730.

(** What the specification asks of a [groups] field, for the group
    vocabulary [avail] of the department. *)
Definition groups_field_ok (avail : list string) (groups : string) : Prop :=
  let tokens := split_on ";" groups in
  (length tokens = 1%nat \/ length tokens = 2%nat) /\
  Forall (fun t => t ∈ avail) tokens /\
  NoDup tokens /\
  Sorted String.le tokens.

#[local] Instance groups_field_ok_dec (avail : list string) (groups : string) :
  Decision (groups_field_ok avail groups).
Proof. unfold groups_field_ok. apply _. Defined.

(** The characters of a word of a lower-cased name. *)
Definition token_char (c : ascii) : bool :=
  Py.is_lower c || Ascii.eqb c "'" || Ascii.eqb c "-".

(** The month and the day [month_day] answers are those of a calendar. *)
Definition month_day_ok (leapyear : bool) (n : Z) : bool :=
  let '(m, d) := Datetime.month_day leapyear n in
  (1 <=? m) && (m <=? 12) && (1 <=? d) && (d <=? 31).

(** The numerals of the fields of a date. *)
Definition four_digits (s : string) : bool :=
  match s with
  | String a (String b (String c (String d EmptyString))) =>
      forallb Py.is_digit [a; b; c; d]
  | _ => false
  end.

Definition two_digits (s : string) : bool :=
  match s with
  | String a (String b EmptyString) => forallb Py.is_digit [a; b]
  | _ => false
  end.

(** ** Concrete runs *)

Module Demo.

Definition names (k : nat) : string :=
  match k with
  | 0%nat => "John Smith"
  | 2%nat => "Jane Smith"
  | _ => "Mary O'Neil-Fox"
  end.

(** A Faker instance; the seed is not looked at, so every seed, 42
    included, gives these streams. *)
Definition faker (seed : Z) : Faker.state :=
  {| Faker.name_at := names;
     Faker.first_name_at := fun _ => "John";
     Faker.last_name_at := fun _ => "Smith";
     Faker.company_email_at := fun _ => "john@smith.example";
     Faker.phone_number_at := fun _ => "555-0100";
     Faker.random_number_at := fun k => k;
     Faker.date_draw_at := fun k => (100 * k)%nat;
     Faker.pos := 0 |}.

(** A [random] module whose raw draws are all [c]. *)
Definition rng (c : nat) : Random.state :=
  {| Random.draws := fun _ => c; Random.pos := 0 |}.

(** 2026-11-04 *)
Definition today : Z := 739924.

Definition start (c : nat) : world := TestUsers.init faker (rng c) today ∅.

End Demo.

(** A state for [generate_users.py] in which the Faker instance gives
    the same first and last name at every call. *)
Definition homonyms : world :=
  {| fake := Demo.faker 0; rng := Demo.rng 0; now := Demo.today; files := ∅ |}.

(** ** Further predicates and runs *)

(** A character of a word of a lower-cased string: neither white space
    nor an upper-case letter. *)
Definition word_char (c : ascii) : bool :=
  negb (Py.isspace c) && negb (Py.is_upper c).

(** A character [generate_username] can leave in a username. *)
Definition username_char (c : ascii) : bool :=
  word_char c && negb (Ascii.eqb c "'") && negb (Ascii.eqb c "-").

(** The other columns of a row of [generate_test_users.py]. *)
Definition email_of (r : row) : string := nth 2 r EmptyString.
Definition department_of (r : row) : string := nth 3 r EmptyString.
Definition groups_of (r : row) : string := nth 4 r EmptyString.
Definition expiry_of (r : row) : string := nth 5 r EmptyString.

(** A row whose columns agree: six fields, the email built on the
    username, a department of the vocabulary and a groups field drawn
    from the groups of that department. *)
Definition row_consistent (rw : row) : Prop :=
  length rw = 6%nat /\
  email_of rw = username_of rw +:+ "@techcorp.com" /\
  department_of rw ∈ TestUsers.DEPARTMENTS /\
  exists avail, TestUsers.GROUPS !! department_of rw = Some avail /\
    groups_field_ok avail (groups_of rw).

(** A row whose expiry is a date of the window that starts on [today]
    and ends 730 days after it. *)
Definition expiry_in_window (today : Z) (rw : row) : Prop :=
  exists d, expiry_of rw = Datetime.strftime_Ymd d /\
    today <= d <= today + 730 /\ d <= Datetime.MAXORDINAL.

(** The username of the [i]-th record of a run whose names all have the
    candidate [base]. *)
Definition homonym (base : string) (i : nat) : string :=
  match i with
  | O => base
  | S _ => base +:+ Py.str (S i)
  end.

Fixpoint homonyms_upto (base : string) (j : nat) : gset string :=
  match j with
  | O => ∅
  | S j' => {[homonym base j']} ∪ homonyms_upto base j'
  end.

(** The usernames [generate_users.py] chooses from, for a first and a
    last name: none when the first name is empty. *)
Definition username_formats (first_name last_name : string) : list string :=
  match first_name with
  | EmptyString => []
  | String initial _ =>
      [Py.lower first_name +:+ Py.lower last_name;
       Py.lower first_name +:+ "." +:+ Py.lower last_name;
       String (Py.lower_char initial) (Py.lower last_name)]
  end.

(** A user of [generate_users.py] whose fields agree with one another
    and with the vocabularies, for a run of the day [today]. *)
Definition user_consistent (today : Z) (u : Users.user) : Prop :=
  Users.full_name u = Users.first_name u +:+ " " +:+ Users.last_name u /\
  Users.username u ∈ username_formats (Users.first_name u) (Users.last_name u) /\
  Users.department u ∈ Users.DEPARTMENTS /\
  Users.role u ∈ Users.ROLES /\
  today - 731 <= Users.start_date u <= today.

(** A computation that leaves the file system, the day and the stream
    of first names as they were, however it ends. *)
Definition stable {A : Type} (m : M A) : Prop :=
  forall (w w' : world) (r : res A), m w = (r, w') ->
    files w' = files w /\ now w' = now w /\
    Faker.first_name_at (fake w') = Faker.first_name_at (fake w).

(** [s.rstrip()]: [s] without its trailing white space. *)
Fixpoint rstrip (s : string) : string :=
  match s with
  | EmptyString => EmptyString
  | String c s' =>
      match rstrip s' with
      | EmptyString => if Py.isspace c then EmptyString else String c EmptyString
      | t => String c t
      end
  end.

(** The sample [generate_users] prints at its end, lines 111 to 115:
    [for i, line in enumerate(f): print(f"  {line.rstrip()}")] with
    [if i >= 3: break]; [lines] is what is left of the file and [i] the
    index of its first line. *)
Fixpoint show_sample (i : nat) (lines : list string) : list string :=
  match lines with
  | [] => []
  | line :: rest =>
      ("  " +:+ rstrip line) ::
      (if (3 <=? i)%nat then [] else show_sample (S i) rest)
  end.

(** Faker instances for concrete runs: the names are those of [names],
    the other streams those of [Demo.faker]. *)
Definition faker_of (names : nat -> string) : Faker.state :=
  {| Faker.name_at := names;
     Faker.first_name_at := Faker.first_name_at (Demo.faker 0);
     Faker.last_name_at := Faker.last_name_at (Demo.faker 0);
     Faker.company_email_at := Faker.company_email_at (Demo.faker 0);
     Faker.phone_number_at := Faker.phone_number_at (Demo.faker 0);
     Faker.random_number_at := Faker.random_number_at (Demo.faker 0);
     Faker.date_draw_at := Faker.date_draw_at (Demo.faker 0);
     Faker.pos := 0 |}.

(** A run whose second name is blank, and a run of homonyms. *)
Definition blank_second : world :=
  {| fake := faker_of (fun k => match k with O => "John Smith" | _ => "  " end);
     rng := Demo.rng 0; now := Demo.today; files := ∅ |}.

Definition all_john_smith : world :=
  {| fake := faker_of (fun _ => "John Smith");
     rng := Demo.rng 3; now := Demo.today; files := ∅ |}.

(** * Properties *)


(** ** Decimal numerals *)

Section Str.

Lemma str_inj (n m : nat) : Py.str n = Py.str m -> n = m.
Proof.
  unfold Py.str. intros H.
  apply Unsigned.to_uint_inj.
  assert (Some (Nat.to_uint n) = Some (Nat.to_uint m)) as Hs.
  { rewrite <- !NilEmpty.usu. by rewrite H. }
  by injection Hs.
Qed.

Lemma append_str_inj (base : string) (n m : nat) :
  base +:+ Py.str n = base +:+ Py.str m -> n = m.
Proof. intros H. apply str_inj. by apply (inj (String.app base)). Qed.

End Str.

(** ** The suffix loop *)

Section SuffixLoop.

Variable username : string.

Let candidate (j : nat) : string := username +:+ Py.str j.

Lemma suffix_loop_ext (fuel : nat) (X Y : gset string) (k : nat) :
  (forall j, (k <= j)%nat -> candidate j ∈ X <-> candidate j ∈ Y) ->
  TestUsers.suffix_loop fuel X username k = TestUsers.suffix_loop fuel Y username k.
Proof.
  revert k. induction fuel as [|fuel IH]; intros k H; simpl;
    destruct (decide _) as [HX|HX], (decide _) as [HY|HY]; try done;
    try (apply H in HX; [done | lia]);
    try (apply H in HY; [done | lia]).
  apply IH. intros j Hj. apply H. lia.
Qed.

Lemma suffix_loop_finds (fuel : nat) : forall (X : gset string) (k : nat),
  (size X <= fuel)%nat ->
  exists r, TestUsers.suffix_loop fuel X username k = Ok r /\ (k <= r)%nat /\
    (candidate r ∉ X) /\
    (forall j, (k <= j < r)%nat -> candidate j ∈ X).
Proof.
  induction fuel as [|fuel IH]; intros X k Hsz; simpl.
  - destruct (decide _) as [Hin|Hin].
    + assert (size X ≠ 0%nat); [|lia].
      intros HX%size_empty_inv. set_solver.
    + exists k. repeat split; [lia | done | intros; lia].
  - destruct (decide _) as [Hin|Hin].
    + set (Y := X ∖ {[candidate k]}).
      assert (size X = S (size Y)) as HszY.
      { rewrite (union_difference_L {[candidate k]} X); [|set_solver].
        rewrite size_union; [by rewrite size_singleton|].
        apply disjoint_singleton_l, not_elem_of_difference. right. by apply elem_of_singleton. }
      destruct (IH Y (S k)) as (r & Hr & Hle & Hfree & Hall); [lia|].
      assert (forall j, (S k <= j)%nat -> candidate j ∈ X <-> candidate j ∈ Y) as Hext.
      { intros j Hj. unfold Y. rewrite elem_of_difference, elem_of_singleton.
        split; [|tauto]. intros HX. split; [done|].
        intros Heq%append_str_inj. lia. }
      exists r. rewrite (suffix_loop_ext fuel X Y (S k) Hext).
      repeat split; [done | lia | | ].
      * intros HX. apply Hfree. apply Hext; [lia | done].
      * intros j Hj. destruct (decide (j = k)) as [->|Hne]; [done|].
        apply Hext; [lia|]. apply Hall. lia.
    + exists k. repeat split; [lia | done | intros; lia].
Qed.

End SuffixLoop.

(** ** The recorded username *)

Lemma unique_username_spec (used : gset string) (base : string) :
  ((base ∉ used) /\ TestUsers.unique_username used base = Ok base) \/
  (base ∈ used /\ exists k : nat,
     TestUsers.unique_username used base = Ok (base +:+ Py.str k) /\
     (2 <= k)%nat /\ (base +:+ Py.str k ∉ used) /\
     (forall j : nat, (2 <= j < k)%nat -> base +:+ Py.str j ∈ used)).
Proof.
  unfold TestUsers.unique_username.
  destruct (decide (base ∈ used)) as [Hin|Hin]; [right | left; done].
  split; [done|].
  destruct (suffix_loop_finds base (size used) used 2) as (k & Hk & Hle & Hfree & Hall);
    [lia|].
  exists k. rewrite Hk. simpl. done.
Qed.

Lemma unique_username_fresh (used : gset string) (base : string) :
  exists u, TestUsers.unique_username used base = Ok u /\ u ∉ used.
Proof.
  destruct (unique_username_spec used base) as [[? ?]|[? (k & ? & ? & ? & ?)]]; eauto.
Qed.

(** ** Splitting into words *)

Lemma flush_nonempty (cur : string) : Forall (fun t => t <> EmptyString) (Py.flush cur).
Proof. destruct cur; simpl; [constructor|]. by repeat constructor. Qed.

Lemma split_go_nonempty (s : string) : forall cur,
  Forall (fun t => t <> EmptyString) (Py.split_go cur s).
Proof.
  induction s as [|c s IH]; intros cur; simpl.
  - apply flush_nonempty.
  - destruct (Py.isspace c); [|apply IH].
    apply Forall_app. split; [apply flush_nonempty | apply IH].
Qed.

Lemma generate_username_total (full_name : string) :
  Py.split (Py.lower full_name) <> [] ->
  exists base, TestUsers.generate_username full_name = Ok base.
Proof.
  unfold TestUsers.generate_username. intros Hne.
  pose proof (split_go_nonempty (Py.lower full_name) EmptyString) as Hall.
  fold (Py.split (Py.lower full_name)) in Hall.
  destruct (Py.split (Py.lower full_name)) as [|p0 parts] eqn:E; [done|].
  apply Forall_cons in Hall as [Hp0 _].
  destruct p0 as [|c p0]; [done|].
  destruct (2 <=? length (String c p0 :: parts))%nat; simpl; [|eauto].
  unfold Py.last. destruct (list.last (String c p0 :: parts)) as [pl|] eqn:El; simpl; [eauto|].
  by apply last_None in El.
Qed.

(** ** What a step leaves unchanged *)

Lemma frame_refl (w : world) : frame w w.
Proof. by split. Qed.

Lemma frame_trans (w1 w2 w3 : world) : frame w1 w2 -> frame w2 w3 -> frame w1 w3.
Proof. intros [? ?] [? ?]. split; congruence. Qed.

Lemma with_rng_frame {A : Type} (f : Random.state -> res A * Random.state)
    (w w' : world) (r : res A) :
  with_rng f w = (r, w') -> frame w w' /\ fake w' = fake w.
Proof.
  unfold with_rng. destruct (f (rng w)) as [r0 g']. intros [= <- <-]. by repeat split.
Qed.

Lemma with_fake_res_frame {A : Type} (f : Faker.state -> res A * Faker.state)
    (w w' : world) (r : res A) :
  with_fake_res f w = (r, w') -> frame w w'.
Proof.
  unfold with_fake_res. destruct (f (fake w)) as [r0 f']. intros [= <- <-]. by split.
Qed.

Lemma lift_inv {A : Type} (r r' : res A) (w w' : world) :
  lift r w = (r', w') -> r' = r /\ w' = w.
Proof. by intros [= <- <-]. Qed.

(** Case analysis on a [bind]. *)
Lemma bind_inv {A B : Type} (m : M A) (k : A -> M B) (w w' : world) (r : res B) :
  bind m k w = (r, w') ->
  (exists a w1, m w = (Ok a, w1) /\ k a w1 = (r, w')) \/
  (exists e, m w = (Raise e, w') /\ r = Raise e) \/
  (m w = (OutOfFuel, w') /\ r = OutOfFuel).
Proof.
  unfold bind. destruct (m w) as [[a|e|] w1]; intros H.
  - left. eauto.
  - right. left. injection H as <- <-. eauto.
  - right. right. injection H as <- <-. eauto.
Qed.

Lemma select_groups_frame (d : string) (w w' : world) (r : res string) :
  TestUsers.select_groups d w = (r, w') -> frame w w' /\ fake w' = fake w.
Proof.
  unfold TestUsers.select_groups. intros H.
  apply bind_inv in H as [(a & w1 & H1 & H)|[(e & H1 & _)|[H1 _]]];
    try (apply lift_inv in H1 as [_ ->]; by repeat split).
  apply lift_inv in H1 as [_ ->].
  apply bind_inv in H as [(n & w2 & H2 & H)|[(e & H2 & _)|[H2 _]]];
    try (by apply with_rng_frame in H2).
  apply with_rng_frame in H2 as [Hf2 Hk2].
  apply bind_inv in H as [(l & w3 & H3 & H)|[(e & H3 & _)|[H3 _]]].
  - apply with_rng_frame in H3 as [Hf3 Hk3]. injection H as _ <-.
    split; [by eapply frame_trans | congruence].
  - apply with_rng_frame in H3 as [Hf3 Hk3].
    split; [by eapply frame_trans | congruence].
  - apply with_rng_frame in H3 as [Hf3 Hk3].
    split; [by eapply frame_trans | congruence].
Qed.

Lemma generate_expiry_date_frame (w w' : world) (r : res string) :
  TestUsers.generate_expiry_date w = (r, w') -> frame w w'.
Proof.
  unfold TestUsers.generate_expiry_date. intros H.
  apply bind_inv in H as [(a & w1 & H1 & H)|[(e & H1 & _)|[H1 _]]];
    try (by apply with_fake_res_frame in H1).
  apply with_fake_res_frame in H1. by injection H as _ <-.
Qed.

(** ** One iteration of the generation loop *)

Lemma user_step_inv (out : string) (used : gset string) (w w' : world)
    (r : res (gset string)) :
  TestUsers.user_step out used w = (r, w') ->
  now w' = now w /\
  match r with
  | Ok used' =>
      exists rw, step_row used w rw /\
        used' = {[username_of rw]} ∪ used /\
        files w' = alter (fun rows => rows ++ [rw]) out (files w) /\
        fake w' = Faker.tick (Faker.tick (fake w))
  | _ => files w' = files w
  end.
Proof.
  unfold TestUsers.user_step. intros H.
  apply bind_inv in H as [(full_name & w1 & H1 & H)|[(e & H1 & _)|[H1 _]]];
    [|by injection H1..].
  injection H1 as <- <-.
  apply bind_inv in H as [(base & w2 & H2 & H)|[(e & H2 & ->)|[H2 ->]]];
    [|by apply lift_inv in H2 as [_ ->]..].
  apply lift_inv in H2 as [Hbase ->].
  apply bind_inv in H as [(u & w3 & H3 & H)|[(e & H3 & ->)|[H3 ->]]];
    [|by apply lift_inv in H3 as [_ ->]..].
  apply lift_inv in H3 as [Hu ->].
  apply bind_inv in H as [(d & w4 & H4 & H)|[(e & H4 & ->)|[H4 ->]]];
    [|apply with_rng_frame in H4 as [[? ?] _]; simpl in *; split; congruence..].
  apply with_rng_frame in H4 as [[Hf4 Hn4] Hk4].
  apply bind_inv in H as [(g & w5 & H5 & H)|[(e & H5 & ->)|[H5 ->]]];
    [|apply select_groups_frame in H5 as [[? ?] _]; simpl in *; split; congruence..].
  apply select_groups_frame in H5 as [[Hf5 Hn5] Hk5].
  apply bind_inv in H as [(ex & w6 & H6 & H)|[(e & H6 & ->)|[H6 ->]]];
    [|apply generate_expiry_date_frame in H6 as [? ?]; simpl in *; split; congruence..].
  pose proof H6 as H6'. apply generate_expiry_date_frame in H6' as [Hf6 Hn6].
  assert (fake w6 = Faker.tick (fake w5)) as Hk6.
  { revert H6. unfold TestUsers.generate_expiry_date, bind, with_fake_res, ret,
      Faker.date_between, Faker.provide.
    destruct (Faker.parse_date _ _); try (intros [= ? ?]; done).
    destruct (Faker.parse_date _ _); try (intros [= ? ?]; done).
    destruct (_ <? _); try (intros [= ? ?]; done).
    intros [= _ <-]. done. }
  injection H as <- <-. simpl in *.
  split; [congruence|].
  eexists. split; [|split; [|split]].
  - exists base, u, d, g, ex. repeat split; [symmetry; exact Hbase | symmetry; exact Hu].
  - done.
  - unfold set_files. simpl. by rewrite Hf6, Hf5, Hf4.
  - rewrite Hk6, Hk5, Hk4. done.
Qed.

(** ** The random choices always succeed on the vocabulary *)

Lemma randbelow_lt (n : nat) (g : Random.state) :
  n <> 0%nat -> (fst (Random.randbelow n g) < n)%nat.
Proof. intros Hn. unfold Random.randbelow. simpl. by apply Nat.mod_upper_bound. Qed.

Lemma choice_elem {A : Type} (l : list A) (g : Random.state) :
  l <> [] -> exists x g', Random.choice l g = (Ok x, g') /\ x ∈ l.
Proof.
  intros Hl. unfold Random.choice. destruct l as [|a l]; [done|].
  destruct (Random.randbelow (length (a :: l)) g) as [r g'] eqn:E.
  assert (r < length (a :: l))%nat as Hr.
  { change r with (fst (r, g')). rewrite <- E. by apply randbelow_lt. }
  destruct (lookup_lt_is_Some_2 (a :: l) r Hr) as [x Hx].
  exists x, g'. rewrite Hx. split; [done|]. by eapply list_elem_of_lookup_2.
Qed.

Lemma select_groups_total (d : string) (avail : list string) (w : world) :
  TestUsers.GROUPS !! d = Some avail -> avail <> [] ->
  exists s w', TestUsers.select_groups d w = (Ok s, w').
Proof.
  intros Hd Hne. unfold TestUsers.select_groups, bind, lift. rewrite Hd.
  cbv beta iota delta [of_option].
  unfold with_rng at 1. unfold Random.randint.
  assert (1 <= Nat.min 2 (length avail))%nat as Hmin.
  { destruct avail as [|? [|? ?]]; simpl; [done|lia..]. }
  destruct (Nat.min 2 (length avail) <? 1)%nat eqn:E; [apply Nat.ltb_lt in E; lia|].
  destruct (Random.randbelow _ (rng w)) as [r g1] eqn:Er.
  assert (r < Nat.min 2 (length avail) - 1 + 1)%nat as Hr.
  { change r with (fst (r, g1)). rewrite <- Er. apply randbelow_lt. lia. }
  unfold with_rng, Random.sample. simpl rng.
  destruct (length avail <? 1 + r)%nat eqn:E2; [apply Nat.ltb_lt in E2; lia|].
  destruct (@Random.sample_loop _ _ _ _ _) as [l g2]. unfold ret. eauto.
Qed.

Lemma departments_groups (d : string) :
  d ∈ TestUsers.DEPARTMENTS ->
  exists avail, TestUsers.GROUPS !! d = Some avail /\ avail <> [].
Proof.
  unfold TestUsers.DEPARTMENTS. intros H.
  repeat (apply elem_of_cons in H as [->|H]; [eexists; split; [by vm_compute|done]|]).
  by apply elem_of_nil in H.
Qed.

Lemma generate_expiry_date_total (w : world) :
  0 < now w <= Datetime.MAXORDINAL - 730 ->
  exists d w', TestUsers.generate_expiry_date w = (Ok (Datetime.strftime_Ymd d), w') /\
    now w <= d <= now w + 730.
Proof.
  unfold Datetime.MAXORDINAL. intros Hnow.
  unfold TestUsers.generate_expiry_date, bind, with_fake_res, ret, Faker.date_between,
    Faker.parse_date, Datetime.add_days, Datetime.MAXORDINAL.
  change (Faker.offset_days 0 0 6) with 0. change (Faker.offset_days 2 0 0) with 730.
  destruct ((0 <? now w + 0) && (now w + 0 <=? 3652059)) eqn:E1; [|lia].
  destruct ((0 <? now w + 730) && (now w + 730 <=? 3652059)) eqn:E2; [|lia].
  destruct (now w + 730 <? now w + 0) eqn:E3; [lia|].
  unfold Faker.provide. eexists _, _. split; [reflexivity|].
  replace (now w + 730 - (now w + 0) + 1) with 731 by lia.
  pose proof (Nat.mod_upper_bound (Faker.date_draw_at (fake w) (Faker.pos (fake w)))
                (Z.to_nat 731)). lia.
Qed.

Lemma user_step_total (out : string) (used : gset string) (w : world) :
  Py.split (Py.lower (Faker.name_at (fake w) (Faker.pos (fake w)))) <> [] ->
  0 < now w <= Datetime.MAXORDINAL - 730 ->
  exists used' w', TestUsers.user_step out used w = (Ok used', w').
Proof.
  intros Hname Hnow.
  destruct (generate_username_total _ Hname) as [base Hbase].
  destruct (unique_username_fresh used base) as (u & Hu & _).
  unfold TestUsers.user_step, bind at 1. simpl.
  unfold bind at 1, lift at 1. rewrite Hbase.
  unfold bind at 1, lift at 1. rewrite Hu.
  unfold bind at 1.
  destruct (choice_elem TestUsers.DEPARTMENTS (rng w)) as (d & g' & Hc & Hd); [done|].
  unfold with_rng at 1. simpl rng. rewrite Hc.
  destruct (departments_groups d Hd) as (avail & Hav & Hne).
  unfold bind at 1.
  match goal with |- context [TestUsers.select_groups d ?w1] =>
    destruct (select_groups_total d avail w1 Hav Hne) as (s & w2 & Hs);
    pose proof (select_groups_frame _ _ _ _ Hs) as [[_ Hn2] _] end.
  rewrite Hs. unfold bind at 1.
  destruct (generate_expiry_date_total w2) as (dt & w3 & Hdt & _).
  { simpl in Hn2. by rewrite Hn2. }
  rewrite Hdt. unfold bind, writerow, ret. eauto.
Qed.

(** ** The generation loop *)

Lemma step_row_derived (used : gset string) (w : world) (rw : row) :
  step_row used w rw -> derived_username rw /\ (username_of rw ∉ used).
Proof.
  intros (base & u & d & g & e & Hbase & Hu & ->). unfold derived_username.
  change (username_of _) with u. change (fullname_of _) with
    (Faker.name_at (fake w) (Faker.pos (fake w))).
  destruct (unique_username_spec used base) as [[Hfree H]|[_ (k & H & Hk & Hfree & _)]];
    rewrite H in Hu; injection Hu as <-; (split; [|done]); exists base; (split; [done|]).
  - by left.
  - right. by exists k.
Qed.

Lemma users_loop_rows (fuel : nat) : forall (count : Z) (out : string)
    (used : gset string) (n : Z) (w w' : world) (r : res unit) (rows0 : list row),
  TestUsers.users_loop fuel count out used n w = (r, w') ->
  files w !! out = Some rows0 ->
  exists rows, files w' !! out = Some (rows0 ++ rows) /\
    NoDup (username_of <$> rows) /\
    Forall (fun rw => username_of rw ∉ used) rows /\
    Forall derived_username rows.
Proof.
  induction fuel as [|fuel IH]; intros count out used n w w' r rows0 H Hf; simpl in H.
  - exists []. rewrite app_nil_r.
    destruct (n <? count); injection H as <- <-; repeat split; auto; constructor.
  - destruct (n <? count).
    2:{ exists []. rewrite app_nil_r. injection H as <- <-.
        repeat split; auto; constructor. }
    apply bind_inv in H as [(used1 & w1 & H1 & H)|[(e & H1 & _)|[H1 _]]].
    + apply user_step_inv in H1 as [_ (rw & Hrow & -> & Hfiles & _)].
      apply step_row_derived in Hrow as [Hder Hfresh].
      destruct (IH _ _ _ _ _ _ _ (rows0 ++ [rw]) H) as (rows & Hrows & Hnd & Hall & Hders).
      { rewrite Hfiles, lookup_alter_eq, Hf. done. }
      exists (rw :: rows). rewrite <- app_assoc in Hrows. repeat split.
      * done.
      * rewrite fmap_cons. apply NoDup_cons. split; [|done].
        intros Hin. apply list_elem_of_fmap in Hin as (rw' & Heq & Hin).
        rewrite Forall_forall in Hall. apply (Hall rw' Hin).
        rewrite <- Heq. set_solver.
      * constructor; [done|]. eapply Forall_impl; [exact Hall|].
        intros rw' Hrw'. simpl in Hrw'. set_solver.
      * by constructor.
    + apply user_step_inv in H1 as [_ Hfiles]. exists []. rewrite app_nil_r, Hfiles.
      repeat split; auto; constructor.
    + apply user_step_inv in H1 as [_ Hfiles]. exists []. rewrite app_nil_r, Hfiles.
      repeat split; auto; constructor.
Qed.

Lemma users_loop_ok (fuel : nat) : forall (count : Z) (out : string)
    (used : gset string) (n : Z) (w : world) (rows0 : list row),
  names_have_words (fake w) -> expiry_window_exists (now w) ->
  (Z.to_nat (count - n) <= fuel)%nat ->
  files w !! out = Some rows0 ->
  exists w' rows, TestUsers.users_loop fuel count out used n w = (Ok tt, w') /\
    files w' !! out = Some (rows0 ++ rows) /\
    length rows = Z.to_nat (count - n) /\
    forall (i : nat) (rw : row), rows !! i = Some rw ->
      length rw = 6%nat /\
      fullname_of rw = Faker.name_at (fake w) (Faker.pos (fake w) + 2 * i)%nat.
Proof.
  induction fuel as [|fuel IH]; intros count out used n w rows0 Hnames Hnow Hfuel Hf;
    simpl.
  - destruct (n <? count) eqn:E; [lia|].
    exists w, []. rewrite app_nil_r. repeat split; [done | simpl; lia |
      by rewrite lookup_nil in * | by rewrite lookup_nil in *].
  - destruct (n <? count) eqn:E.
    2:{ exists w, []. rewrite app_nil_r. repeat split; [done | simpl; lia |
          by rewrite lookup_nil in * | by rewrite lookup_nil in *]. }
    destruct (user_step_total out used w (Hnames _) Hnow) as (used1 & w1 & H1).
    unfold bind. rewrite H1.
    apply user_step_inv in H1 as [Hn1 (rw & Hrow & -> & Hfiles & Hfake)].
    destruct (IH count out ({[username_of rw]} ∪ used) (n + 1) w1 (rows0 ++ [rw]))
      as (w' & rows & Hrun & Hrows & Hlen & Hnth).
    { rewrite Hfake. done. }
    { by rewrite Hn1. }
    { lia. }
    { rewrite Hfiles, lookup_alter_eq, Hf. done. }
    exists w', (rw :: rows). rewrite <- app_assoc in Hrows. repeat split.
    + done.
    + done.
    + simpl. rewrite Hlen. lia.
    + destruct i as [|i]; simpl in H.
      * injection H as <-. by destruct Hrow as (? & ? & ? & ? & ? & _ & _ & ->).
      * by apply Hnth in H as [? _].
    + destruct i as [|i]; simpl in H.
      * injection H as <-. destruct Hrow as (? & ? & ? & ? & ? & _ & _ & ->).
        change (fullname_of _) with (Faker.name_at (fake w) (Faker.pos (fake w))).
        f_equal. lia.
      * apply Hnth in H as [_ ->]. rewrite Hfake. simpl. f_equal. lia.
Qed.

(** ** Group selection *)

(** Name the next draw and bound it. *)
Ltac draw a :=
  match goal with
  | |- context [Random.randbelow ?n ?g0] =>
      let E := fresh "E" in
      let g := fresh "g" in
      let H := fresh "H" in
      destruct (Random.randbelow n g0) as [a g] eqn:E;
      assert (H : (a < n)%nat)
        by (change a with (fst (a, g)); rewrite <- E; apply randbelow_lt; lia);
      clear E
  end.

(** Enumerate the values of a bounded draw, running [k] on each. *)
Ltac cases a k :=
  first [ exfalso; lia | destruct a as [|a]; [k | cases a k] ].

Ltac groups_leaf :=
  eexists _, _; split; [reflexivity|]; apply (bool_decide_unpack _); by vm_compute.

Ltac sample_cases :=
  unfold Random.sample;
  cbv [length Nat.ltb Nat.leb Random.sample_loop rng Nat.sub Nat.add];
  let b := fresh "b" in
  draw b;
  cases b ltac:(
    cbv [lookup list_lookup insert list_insert];
    first [ groups_leaf
          | let c := fresh "c" in draw c; cases c ltac:(groups_leaf) ]).

Ltac department_cases :=
  eexists; split; [by vm_compute|];
  unfold TestUsers.select_groups, bind, lift;
  match goal with
  | |- context [TestUsers.GROUPS !! ?d] =>
      let E := fresh "E" in
      destruct (TestUsers.GROUPS !! d) eqn:E; vm_compute in E;
      [injection E as <- | discriminate]
  end;
  cbv [of_option with_rng Random.randint Nat.min length Nat.ltb Nat.leb Nat.sub Nat.add];
  let a := fresh "a" in
  draw a; cases a ltac:(sample_cases).

(** ** Dates *)

Lemma month_day_ok_all :
  forallb (fun k => month_day_ok true (Z.of_nat k) && month_day_ok false (Z.of_nat k))
    (seq 0 365) = true.
Proof. by vm_compute. Qed.

Lemma month_day_range (leapyear : bool) (n : Z) :
  0 <= n < 365 ->
  let '(m, d) := Datetime.month_day leapyear n in
  1 <= m <= 12 /\ 1 <= d <= 31.
Proof.
  intros Hn. pose proof month_day_ok_all as H.
  rewrite forallb_forall in H. specialize (H (Z.to_nat n)).
  rewrite Z2Nat.id in H by lia.
  assert (month_day_ok leapyear n = true) as Hok.
  { assert (In (Z.to_nat n) (seq 0 365)) as Hin by (apply in_seq; lia).
    apply H in Hin. apply andb_true_iff in Hin as [? ?]. by destruct leapyear. }
  unfold month_day_ok in Hok. destruct (Datetime.month_day leapyear n) as [m d]. lia.
Qed.

Lemma ord2ymd_range (n : Z) :
  364878 <= n <= Datetime.MAXORDINAL ->
  let '(y, m, d) := Datetime.ord2ymd n in
  1000 <= y <= 9999 /\ 1 <= m <= 12 /\ 1 <= d <= 31.
Proof.
  unfold Datetime.MAXORDINAL, Datetime.ord2ymd, Datetime.DI400Y, Datetime.DI100Y,
    Datetime.DI4Y. intros Hn. cbv zeta.
  set (a := n - 1).
  pose proof (Z.div_mod a 146097 ltac:(lia)) as D1.
  pose proof (Z.mod_pos_bound a 146097 ltac:(lia)) as B1.
  set (r1 := a mod 146097) in *. set (q1 := a / 146097) in *.
  pose proof (Z.div_mod r1 36524 ltac:(lia)) as D2.
  pose proof (Z.mod_pos_bound r1 36524 ltac:(lia)) as B2.
  set (r2 := r1 mod 36524) in *. set (q2 := r1 / 36524) in *.
  pose proof (Z.div_mod r2 1461 ltac:(lia)) as D3.
  pose proof (Z.mod_pos_bound r2 1461 ltac:(lia)) as B3.
  set (r3 := r2 mod 1461) in *. set (q3 := r2 / 1461) in *.
  pose proof (Z.div_mod r3 365 ltac:(lia)) as D4.
  pose proof (Z.mod_pos_bound r3 365 ltac:(lia)) as B4.
  set (r4 := r3 mod 365) in *. set (q4 := r3 / 365) in *.
  clearbody r1 q1 r2 q2 r3 q3 r4 q4. subst a.
  destruct ((q4 =? 4) || (q2 =? 4)) eqn:E.
  - apply orb_true_iff in E. rewrite !Z.eqb_eq in E. lia.
  - apply orb_false_iff in E. rewrite !Z.eqb_neq in E.
    pose proof (month_day_range
      ((q4 =? 3) && (negb (q3 =? 24) || (q2 =? 3))) r4 B4) as Hmd.
    destruct (Datetime.month_day _ r4) as [m d].
    split; [lia | exact Hmd].
Qed.

Lemma year_numerals :
  forallb (fun k => four_digits (Py.str (Z.to_nat 1000 + k)))
    (seq 0 (Z.to_nat 9000)) = true.
Proof. by vm_compute. Qed.

Lemma field_numerals :
  forallb (fun k => two_digits (Datetime.zfill 2 (Z.of_nat k))) (seq 1 31) = true.
Proof. by vm_compute. Qed.

Lemma str_four_digits (y : Z) : 1000 <= y <= 9999 -> four_digits (Py.str (Z.to_nat y)) = true.
Proof.
  intros Hy. pose proof year_numerals as H. rewrite forallb_forall in H.
  specialize (H (Z.to_nat y - Z.to_nat 1000)%nat).
  replace (Z.to_nat 1000 + (Z.to_nat y - Z.to_nat 1000))%nat with (Z.to_nat y) in H
    by lia.
  apply H, in_seq. lia.
Qed.

Lemma zfill_two_digits (m : Z) : 1 <= m <= 31 -> two_digits (Datetime.zfill 2 m) = true.
Proof.
  intros Hm. pose proof field_numerals as H. rewrite forallb_forall in H.
  specialize (H (Z.to_nat m)). rewrite Z2Nat.id in H by lia.
  apply H, in_seq. lia.
Qed.

Lemma iso_shape_fields (y m d : string) :
  four_digits y = true -> two_digits m = true -> two_digits d = true ->
  iso_shape (y +:+ "-" +:+ m +:+ "-" +:+ d) = true.
Proof.
  destruct y as [|y1 [|y2 [|y3 [|y4 [|? ?]]]]]; try done.
  destruct m as [|m1 [|m2 [|? ?]]]; try done.
  destruct d as [|d1 [|d2 [|? ?]]]; try done.
  unfold four_digits, two_digits, iso_shape, String.app. cbn [String.append forallb].
  rewrite !andb_true_r, !andb_true_iff. intros (? & ? & ? & ?) (? & ?) (? & ?).
  repeat split; done.
Qed.

Lemma strftime_iso (d : Z) :
  364878 <= d <= Datetime.MAXORDINAL ->
  iso_shape (Datetime.strftime_Ymd d) = true /\
  Datetime.strftime_Ymd d = Datetime.isoformat d.
Proof.
  intros Hd. pose proof (ord2ymd_range d Hd) as H.
  unfold Datetime.strftime_Ymd, Datetime.isoformat.
  destruct (Datetime.ord2ymd d) as [[y m] dd]. destruct H as (Hy & Hm & Hdd).
  pose proof (str_four_digits y Hy) as H4.
  split.
  - apply iso_shape_fields; [done | apply zfill_two_digits; lia..].
  - f_equal. unfold Datetime.zfill at 1.
    destruct (Py.str (Z.to_nat y)) as [|y1 [|y2 [|y3 [|y4 [|? ?]]]]]; done.
Qed.

Lemma date_between_range (today : Z) (s e : Faker.when) (f f' : Faker.state) (d : Z) :
  Faker.date_between today s e f = (Ok d, f') ->
  exists a b, Faker.parse_date today s = Ok a /\ Faker.parse_date today e = Ok b /\
    a <= d <= b.
Proof.
  unfold Faker.date_between.
  destruct (Faker.parse_date today s) as [a| |]; [|done..].
  destruct (Faker.parse_date today e) as [b| |]; [|done..].
  destruct (b <? a) eqn:E; [done|]. unfold Faker.provide. intros [= <- _].
  exists a, b. repeat split; [lia|].
  pose proof (Nat.mod_upper_bound (Faker.date_draw_at f (Faker.pos f))
                (Z.to_nat (b - a + 1))). lia.
Qed.

Lemma with_fake_inv {A : Type} (f : Faker.state -> A * Faker.state) (w w' : world)
    (r : res A) :
  with_fake f w = (r, w') -> frame w w' /\ exists a, r = Ok a.
Proof.
  unfold with_fake. destruct (f (fake w)) as [a f']. intros [= <- <-].
  split; [by split | by exists a].
Qed.

Lemma users_generate_username_frame (first_name last_name : string) (w w' : world)
    (r : res string) :
  Users.generate_username first_name last_name w = (r, w') -> frame w w'.
Proof.
  unfold Users.generate_username. intros H.
  apply bind_inv in H as [(c & w1 & H1 & H)|[(e & H1 & _)|[H1 _]]];
    apply lift_inv in H1 as [_ ->]; [|apply frame_refl..].
  by apply with_rng_frame in H as [? _].
Qed.

Lemma generate_user_start_date (w w' : world) (u : Users.user) :
  Users.generate_user w = (Ok u, w') ->
  now w - 731 <= Users.start_date u <= now w.
Proof.
  unfold Users.generate_user. intros H.
  apply bind_inv in H as [(fn & w1 & H1 & H)|[(e & _ & [=])|[_ [=]]]].
  apply with_fake_inv in H1 as [[_ N1] _].
  apply bind_inv in H as [(ln & w2 & H2 & H)|[(e & _ & [=])|[_ [=]]]].
  apply with_fake_inv in H2 as [[_ N2] _].
  apply bind_inv in H as [(un & w3 & H3 & H)|[(e & _ & [=])|[_ [=]]]].
  apply users_generate_username_frame in H3 as [_ N3].
  apply bind_inv in H as [(em & w4 & H4 & H)|[(e & _ & [=])|[_ [=]]]].
  apply with_fake_inv in H4 as [[_ N4] _].
  apply bind_inv in H as [(ph & w5 & H5 & H)|[(e & _ & [=])|[_ [=]]]].
  apply with_fake_inv in H5 as [[_ N5] _].
  apply bind_inv in H as [(dp & w6 & H6 & H)|[(e & _ & [=])|[_ [=]]]].
  apply with_rng_frame in H6 as [[_ N6] _].
  apply bind_inv in H as [(ro & w7 & H7 & H)|[(e & _ & [=])|[_ [=]]]].
  apply with_rng_frame in H7 as [[_ N7] _].
  apply bind_inv in H as [(sd & w8 & H8 & H)|[(e & _ & [=])|[_ [=]]]].
  apply bind_inv in H as [(id & w9 & H9 & H)|[(e & _ & [=])|[_ [=]]]].
  injection H as <- _. simpl.
  unfold with_fake_res in H8.
  destruct (Faker.date_between _ _ _ _) as [r f'] eqn:E. injection H8 as -> _.
  apply date_between_range in E as (a & b & Ha & Hb & Hab).
  assert (now w7 = now w) as N by congruence. rewrite N in *.
  injection Hb as <-. revert Ha. unfold Faker.parse_date, Datetime.add_days.
  change (Faker.offset_days (-2) 0 0) with (-731).
  destruct (_ && _); [|done]. intros [= <-]. lia.
Qed.

(** ** The shape of usernames *)

Lemma lower_char_space (c : ascii) : Py.isspace (Py.lower_char c) = Py.isspace c.
Proof. destruct c as [[] [] [] [] [] [] [] []]; by vm_compute. Qed.

Lemma lower_char_name (c : ascii) :
  name_char c = true -> Py.isspace c = false -> token_char (Py.lower_char c) = true.
Proof. destruct c as [[] [] [] [] [] [] [] []]; by vm_compute. Qed.

Lemma lower_char_letter (c : ascii) :
  is_letter c = true -> Py.is_lower (Py.lower_char c) = true.
Proof. destruct c as [[] [] [] [] [] [] [] []]; by vm_compute. Qed.

Lemma token_char_cases (c : ascii) :
  token_char c = true ->
  Py.is_lower c = true \/ c = "'"%char \/ c = "-"%char.
Proof.
  unfold token_char. rewrite !orb_true_iff, !Ascii.eqb_eq. tauto.
Qed.

Lemma all_chars_app (p : ascii -> bool) (s t : string) :
  Py.all_chars p (s +:+ t) = Py.all_chars p s && Py.all_chars p t.
Proof.
  induction s as [|c s IH]; [done|].
  change (String c s +:+ t) with (String c (s +:+ t)). simpl.
  by rewrite IH, andb_assoc.
Qed.

Lemma lower_app (s t : string) : Py.lower (s +:+ t) = Py.lower s +:+ Py.lower t.
Proof.
  induction s as [|c s IH]; [done|].
  change (String c s +:+ t) with (String c (s +:+ t)). simpl. by rewrite IH.
Qed.

Lemma flush_lower (cur : string) : Py.flush (Py.lower cur) = Py.lower <$> Py.flush cur.
Proof. by destruct cur. Qed.

Lemma split_go_lower (s : string) : forall cur,
  Py.split_go (Py.lower cur) (Py.lower s) = Py.lower <$> Py.split_go cur s.
Proof.
  induction s as [|c s IH]; intros cur; simpl.
  - apply flush_lower.
  - rewrite lower_char_space. destruct (Py.isspace c).
    + rewrite fmap_app, flush_lower. f_equal. apply (IH EmptyString).
    + rewrite <- IH, lower_app. done.
Qed.

Lemma split_lower (s : string) : Py.split (Py.lower s) = Py.lower <$> Py.split s.
Proof. apply (split_go_lower s EmptyString). Qed.

Lemma flush_chars (p : ascii -> bool) (cur : string) :
  Py.all_chars p cur = true -> Forall (fun t => Py.all_chars p t = true) (Py.flush cur).
Proof. destruct cur; intros H; simpl; [constructor|]. by repeat constructor. Qed.

(** The words of a name keep the characters of the name that are not
    white space. *)
Lemma split_go_chars (p : ascii -> bool) (s : string) : forall cur,
  Py.all_chars (fun c => p c || Py.isspace c) s = true ->
  Py.all_chars p cur = true ->
  Forall (fun t => Py.all_chars p t = true) (Py.split_go cur s).
Proof.
  induction s as [|c s IH]; intros cur Hs Hcur; simpl.
  - by apply flush_chars.
  - simpl in Hs. apply andb_true_iff in Hs as [Hc Hs].
    destruct (Py.isspace c) eqn:E.
    + apply Forall_app. split; [by apply flush_chars|]. by apply IH.
    + apply IH; [done|]. rewrite all_chars_app, Hcur. simpl.
      rewrite orb_false_r in Hc. by rewrite Hc.
Qed.

Lemma lower_name_chars (s : string) :
  Py.all_chars name_char s = true ->
  Py.all_chars (fun c => token_char c || Py.isspace c) (Py.lower s) = true.
Proof.
  induction s as [|c s IH]; [done|]. simpl. intros [Hc Hs]%andb_true_iff.
  rewrite (IH Hs), andb_true_r, lower_char_space.
  destruct (Py.isspace c) eqn:E; [by rewrite orb_true_r|].
  by rewrite (lower_char_name c Hc E).
Qed.

Lemma lower_any_letter (s : string) :
  Py.any_char is_letter s = true -> Py.any_char Py.is_lower (Py.lower s) = true.
Proof.
  induction s as [|c s IH]; [done|]. simpl. intros [Hc|Hs]%orb_true_iff.
  - by rewrite (lower_char_letter c Hc).
  - by rewrite (IH Hs), orb_true_r.
Qed.

Lemma remove_char_all (p : ascii -> bool) (c : ascii) (s : string) :
  Py.all_chars (fun a => p a || Ascii.eqb a c) s = true ->
  Py.all_chars p (Py.remove_char c s) = true.
Proof.
  induction s as [|a s IH]; [done|]. simpl. intros [Ha Hs]%andb_true_iff.
  destruct (Ascii.eqb a c) eqn:E; [by apply IH|].
  simpl. rewrite orb_false_r in Ha. by rewrite Ha, (IH Hs).
Qed.

Lemma remove_char_any (p : ascii -> bool) (c : ascii) (s : string) :
  p c = false -> Py.any_char p s = true -> Py.any_char p (Py.remove_char c s) = true.
Proof.
  intros Hc. induction s as [|a s IH]; [done|]. simpl. intros [Ha|Hs]%orb_true_iff.
  - destruct (Ascii.eqb a c) eqn:E.
    + apply Ascii.eqb_eq in E as ->. congruence.
    + simpl. by rewrite Ha.
  - destruct (Ascii.eqb a c); [by apply IH|]. simpl. by rewrite (IH Hs), orb_true_r.
Qed.

(** What [generate_username] removes from the joined words. *)
Lemma stripped_matches_base (s : string) :
  Py.all_chars token_char s = true -> Py.any_char Py.is_lower s = true ->
  matches_base (Py.remove_char "-" (Py.remove_char "'" s)) = true.
Proof.
  intros Hall Hany. unfold matches_base.
  assert (Py.all_chars Py.is_lower (Py.remove_char "-" (Py.remove_char "'" s)) = true)
    as ->.
  { apply remove_char_all, remove_char_all.
    revert Hall. clear. induction s as [|a s IH]; [done|]. simpl.
    intros [Ha Hs]%andb_true_iff. rewrite (IH Hs), andb_true_r.
    revert Ha. unfold token_char.
    by destruct (Py.is_lower a), (Ascii.eqb a "'"), (Ascii.eqb a "-"). }
  assert (Py.any_char Py.is_lower (Py.remove_char "-" (Py.remove_char "'" s)) = true)
    as Hne by (by do 2 (apply remove_char_any; [done|])).
  by destruct (Py.remove_char "-" (Py.remove_char "'" s)).
Qed.

(** The numeral of a positive number: a digit from 1 to 9, then digits. *)
Lemma uint_digits (d : Decimal.uint) :
  Py.all_chars Py.is_digit (NilEmpty.string_of_uint d) = true.
Proof. induction d; simpl; by rewrite ?IHd. Qed.

Lemma unorm_head (d : Decimal.uint) :
  Decimal.unorm d = Decimal.zero \/
  match Decimal.unorm d with
  | Decimal.Nil | Decimal.D0 _ => False
  | _ => True
  end.
Proof.
  unfold Decimal.unorm. induction d; simpl; auto.
Qed.

Lemma str_shape (k : nat) :
  (1 <= k)%nat ->
  exists d ds, Py.str k = String d ds /\ digit_1_9 d = true /\
    Py.all_chars Py.is_digit ds = true.
Proof.
  intros Hk. unfold Py.str.
  pose proof (Unsigned.to_of (Nat.to_uint k)) as Hnorm.
  rewrite Unsigned.of_to in Hnorm.
  pose proof (uint_digits (Nat.to_uint k)) as Hdig.
  assert (Nat.to_uint k <> Decimal.zero) as Hnz.
  { intros Hz. pose proof (Unsigned.of_to k) as H. rewrite Hz in H. cbv in H. lia. }
  pose proof (unorm_head (Nat.to_uint k)) as [Hz|Hhead]; [congruence|].
  rewrite <- Hnorm in Hhead.
  destruct (Nat.to_uint k) as [|u|u|u|u|u|u|u|u|u|u]; try done;
    simpl in *; (eexists _, _; split; [reflexivity|]; split; [by vm_compute|done]).
Qed.

Lemma span_lower_app (a : string) (d : ascii) (ds : string) :
  Py.all_chars Py.is_lower a = true -> Py.is_lower d = false ->
  span_lower (a +:+ String d ds) = (a, String d ds).
Proof.
  intros Ha Hd. induction a as [|c a IH].
  - change (EmptyString +:+ String d ds) with (String d ds). simpl. by rewrite Hd.
  - change (String c a +:+ String d ds) with (String c (a +:+ String d ds)).
    simpl in *. apply andb_true_iff in Ha as [Hc Ha]. by rewrite Hc, (IH Ha).
Qed.

Lemma digit_not_lower (d : ascii) : digit_1_9 d = true -> Py.is_lower d = false.
Proof.
  unfold digit_1_9, Py.is_lower. intros [H1 H2]%andb_true_iff.
  apply Nat.leb_le in H2. apply andb_false_iff. left. apply Nat.leb_gt. lia.
Qed.

Lemma suffixed_matches (base : string) (k : nat) :
  matches_base base = true -> (1 <= k)%nat ->
  matches_suffixed digit_1_9 (base +:+ Py.str k) = true.
Proof.
  unfold matches_base. intros [Hne Hall]%andb_true_iff Hk.
  destruct (str_shape k Hk) as (d & ds & -> & Hd & Hds).
  unfold matches_suffixed. rewrite (span_lower_app base d ds Hall (digit_not_lower d Hd)).
  by rewrite Hne, Hd, Hds.
Qed.

(** The candidate of a name made of letters, apostrophes, hyphens and
    white space whose last word has a letter. *)
Lemma generate_username_matches (full_name : string) (t : string) :
  Py.all_chars name_char full_name = true ->
  Py.last (Py.split full_name) = Ok t ->
  Py.any_char is_letter t = true ->
  exists base, TestUsers.generate_username full_name = Ok base /\
    matches_base base = true.
Proof.
  intros Hchars Hlast Hletter. unfold TestUsers.generate_username.
  pose proof (split_go_chars token_char (Py.lower full_name) EmptyString
                (lower_name_chars full_name Hchars) eq_refl) as Htok.
  pose proof (split_go_nonempty (Py.lower full_name) EmptyString) as Hne.
  fold (Py.split (Py.lower full_name)) in Htok, Hne.
  assert (Py.last (Py.split (Py.lower full_name)) = Ok (Py.lower t)) as Hl.
  { rewrite split_lower. unfold Py.last in *. rewrite fmap_last.
    destruct (list.last (Py.split full_name)); [|done]. by injection Hlast as ->. }
  pose proof (lower_any_letter t Hletter) as Hany.
  destruct (Py.split (Py.lower full_name)) as [|p0 parts]; [done|].
  assert (Py.all_chars token_char (Py.lower t) = true) as Hlt.
  { unfold Py.last in Hl. destruct (list.last (p0 :: parts)) as [x|] eqn:E; [|done].
    injection Hl as <-. apply last_Some_elem_of in E.
    rewrite Forall_forall in Htok. by apply Htok. }
  apply Forall_cons in Htok as [Hp0 _]. apply Forall_cons in Hne as [Hp0ne _].
  destruct p0 as [|c p0]; [done|].
  destruct (2 <=? length (String c p0 :: parts))%nat eqn:E2.
  - rewrite Hl. cbn [res_bind Py.first Py.first_char of_option head].
    eexists. split; [reflexivity|].
    apply stripped_matches_base; simpl.
    + simpl in Hp0. apply andb_true_iff in Hp0 as [-> _]. done.
    + by rewrite Hany, orb_true_r.
  - cbn [res_bind Py.first Py.first_char of_option head].
    eexists. split; [reflexivity|].
    destruct parts; [|by simpl in E2].
    simpl in Hl. injection Hl as Hl. rewrite Hl.
    by apply stripped_matches_base.
Qed.

(** * The properties of the specification *)

(** C1 fails on the code: the seed fixes the Faker instance, but the
    department and the groups come from the [random] module, which is
    not seeded.  Two runs with count 1 from the same seeded Faker
    instance, the same day and the same output target write different
    files when the [random] module starts from different states. *)
Theorem C1_unseeded_random_differs :
  let run (g : Random.state) :=
    snd (TestUsers.generate_users 1 "out.csv"
           (TestUsers.init Demo.faker g Demo.today ∅)) in
  files (run (Demo.rng 0)) !! "out.csv" =
    Some [TestUsers.header;
          ["jsmith"; "John Smith"; "jsmith@techcorp.com"; "IT"; "developers";
           "2027-02-12"]] /\
  files (run (Demo.rng 1)) !! "out.csv" =
    Some [TestUsers.header;
          ["jsmith"; "John Smith"; "jsmith@techcorp.com"; "Sales";
           "account_managers;business_dev"; "2027-02-12"]] /\
  files (run (Demo.rng 0)) !! "out.csv" <> files (run (Demo.rng 1)) !! "out.csv".
Proof. repeat split; by vm_compute. Qed.

(** C2, as the code has it: in every run of [generate_test_users.py],
    however it ends, the usernames of the rows written are pairwise
    distinct, and each is the candidate derived from the full name of its
    row or that candidate followed by a numeric suffix from 2 on.
    [generate_users.py] has no such check (see the counterexample). *)
Theorem C2_test_users_usernames_distinct (count : Z) (output_file : string) (w : world) :
  exists rows : list row,
    files (snd (TestUsers.generate_users count output_file w)) !! output_file
      = Some (TestUsers.header :: rows) /\
    NoDup (username_of <$> rows) /\
    Forall derived_username rows.
Proof.
  destruct (TestUsers.generate_users count output_file w) as [r w'] eqn:Hrun.
  unfold TestUsers.generate_users, bind, open_w, writerow in Hrun.
  fold (bind (A := gset string) (B := unit)) in Hrun.
  match type of Hrun with
  | TestUsers.users_loop ?f ?c ?o ?u ?n ?w0 = _ =>
      destruct (users_loop_rows f c o u n w0 w' r [TestUsers.header] Hrun)
        as (rows & Hfile & Hnd & _ & Hder)
  end.
  { unfold set_files. simpl. by rewrite alter_insert_eq, lookup_insert_eq. }
  exists rows. done.
Qed.

(** C2 as stated fails on [generate_users.py]: with a Faker instance
    that repeats one name, [main] ends normally and the usernames it
    wrote are not pairwise distinct. *)
Lemma C2_counterexample :
  exists rows : list row,
    Users.main homonyms =
      (Ok tt, snd (Users.main homonyms)) /\
    files (snd (Users.main homonyms)) !! Users.OUTPUT_FILE
      = Some (Users.fieldnames :: rows) /\
    ~ NoDup (username_of <$> rows).
Proof.
  eexists. split; [by vm_compute|]. split; [by vm_compute|].
  intros H. apply NoDup_cons in H as [Hnot _]. apply Hnot. by vm_compute; left.
Qed.

(** C3, as the code has it: a negative count is not rejected.  The run
    creates (or truncates) the output file, writes the header and no
    record, and ends normally. *)
Theorem C3_negative_count_header_only (count : Z) (output_file : string) (w : world) :
  count < 0 ->
  TestUsers.generate_users count output_file w =
    (Ok tt, set_files (<[output_file := [TestUsers.header]]> (files w)) w).
Proof.
  intros Hneg. unfold TestUsers.generate_users, bind, open_w, writerow.
  replace (Z.to_nat count) with 0%nat by lia. simpl.
  destruct (0 <? count) eqn:E; [lia|]. unfold ret, set_files. simpl.
  by rewrite alter_insert_eq.
Qed.

Lemma C3_witness :
  -1 < 0 /\
  TestUsers.generate_users (-1) "out.csv" (Demo.start 0) =
    (Ok tt, set_files (<["out.csv" := [TestUsers.header]]> (files (Demo.start 0)))
              (Demo.start 0)).
Proof.
  assert (-1 < 0) as H by lia.
  split; [exact H|]. exact (C3_negative_count_header_only (-1) "out.csv" (Demo.start 0) H).
Defined.

(** C3 as stated fails: with count -1 the run raises nothing and the
    output file, absent before, exists afterwards with its header. *)
Lemma C3_counterexample :
  files (Demo.start 0) !! "out.csv" = None /\
  fst (TestUsers.generate_users (-1) "out.csv" (Demo.start 0)) = Ok tt /\
  files (snd (TestUsers.generate_users (-1) "out.csv" (Demo.start 0))) !! "out.csv"
    = Some [TestUsers.header].
Proof. by vm_compute. Qed.

(** C4: for every count [>= 0], in an environment where every generated
    name has a word and the expiry window exists, the run ends normally
    and the output file holds exactly [count + 1] rows: the header, then
    one row of six fields per record, in the order of generation (row
    [i] carries the name the Faker instance gave at the [i]-th
    iteration).  With count 0 the file holds the header alone. *)
Theorem C4_file_has_count_plus_one_rows (count : Z) (output_file : string) (w : world) :
  0 <= count ->
  names_have_words (fake w) ->
  expiry_window_exists (now w) ->
  exists (w' : world) (rows : list row),
    TestUsers.generate_users count output_file w = (Ok tt, w') /\
    files w' !! output_file = Some (TestUsers.header :: rows) /\
    Z.of_nat (length (TestUsers.header :: rows)) = count + 1 /\
    (count = 0 -> rows = []) /\
    forall (i : nat) (rw : row), rows !! i = Some rw ->
      length rw = 6%nat /\
      fullname_of rw = Faker.name_at (fake w) (Faker.pos (fake w) + 2 * i)%nat.
Proof.
  intros Hcount Hnames Hnow.
  unfold TestUsers.generate_users, bind, open_w, writerow.
  set (w0 := set_files _ (set_files _ w)).
  destruct (users_loop_ok (Z.to_nat count) count output_file ∅ 0 w0 [TestUsers.header])
    as (w' & rows & Hrun & Hfile & Hlen & Hrows); [done | done | lia | |].
  { unfold w0, set_files. simpl. by rewrite alter_insert_eq, lookup_insert_eq. }
  exists w', rows. split; [done|]. split; [done|]. split; [simpl length; lia|].
  split; [intros ->; by destruct rows|]. exact Hrows.
Qed.

Lemma C4_witness :
  0 <= 3 /\ names_have_words (fake (Demo.start 0)) /\
  expiry_window_exists (now (Demo.start 0)) /\
  exists (w' : world) (rows : list row),
    TestUsers.generate_users 3 "out.csv" (Demo.start 0) = (Ok tt, w') /\
    files w' !! "out.csv" = Some (TestUsers.header :: rows) /\
    Z.of_nat (length (TestUsers.header :: rows)) = 3 + 1 /\
    (3 = 0 -> rows = []) /\
    forall (i : nat) (rw : row), rows !! i = Some rw ->
      length rw = 6%nat /\
      fullname_of rw =
        Faker.name_at (fake (Demo.start 0)) (Faker.pos (fake (Demo.start 0)) + 2 * i)%nat.
Proof.
  assert (0 <= 3) as H1 by lia.
  assert (names_have_words (fake (Demo.start 0))) as H2
    by (intros [|[|[|k]]]; vm_compute; discriminate).
  assert (expiry_window_exists (now (Demo.start 0))) as H3
    by (vm_compute; split; [reflexivity | discriminate]).
  split; [exact H1|]. split; [exact H2|]. split; [exact H3|].
  exact (C4_file_has_count_plus_one_rows 3 "out.csv" (Demo.start 0) H1 H2 H3).
Defined.

(** C5, as the code has it: for a full name made of ASCII letters,
    apostrophes, hyphens and white space whose last word has a letter,
    the candidate username matches [^[a-z]+$]; the username recorded
    for it is the candidate itself when it is unused, and otherwise
    matches [^[a-z]+[1-9][0-9]*$], the digits being the numeral of a
    suffix from 2 on. *)
Theorem C5_username_shape (full_name : string) (t : string) :
  Py.all_chars name_char full_name = true ->
  Py.last (Py.split full_name) = Ok t ->
  Py.any_char is_letter t = true ->
  exists base : string,
    TestUsers.generate_username full_name = Ok base /\
    matches_base base = true /\
    forall used : gset string, exists u : string,
      TestUsers.unique_username used base = Ok u /\
      (((base ∉ used) /\ u = base) \/
       (base ∈ used /\ matches_suffixed digit_1_9 u = true /\
        exists k : nat, (2 <= k)%nat /\ u = base +:+ Py.str k)).
Proof.
  intros Hchars Hlast Hletter.
  destruct (generate_username_matches full_name t Hchars Hlast Hletter)
    as (base & Hbase & Hmatch).
  exists base. split; [done|]. split; [done|]. intros used.
  destruct (unique_username_spec used base) as [[Hfree H]|[Hin (k & H & Hk & _)]].
  - exists base. split; [done|]. by left.
  - exists (base +:+ Py.str k). split; [done|]. right. split; [done|].
    split; [apply suffixed_matches; [done|lia] | by exists k].
Qed.

Lemma C5_witness :
  Py.all_chars name_char "Mary O'Neil-Fox" = true /\
  Py.last (Py.split "Mary O'Neil-Fox") = Ok "O'Neil-Fox" /\
  Py.any_char is_letter "O'Neil-Fox" = true /\
  exists base : string,
    TestUsers.generate_username "Mary O'Neil-Fox" = Ok base /\
    matches_base base = true /\
    forall used : gset string, exists u : string,
      TestUsers.unique_username used base = Ok u /\
      (((base ∉ used) /\ u = base) \/
       (base ∈ used /\ matches_suffixed digit_1_9 u = true /\
        exists k : nat, (2 <= k)%nat /\ u = base +:+ Py.str k)).
Proof.
  assert (Py.all_chars name_char "Mary O'Neil-Fox" = true) as H1 by (by vm_compute).
  assert (Py.last (Py.split "Mary O'Neil-Fox") = Ok "O'Neil-Fox") as H2
    by (by vm_compute).
  assert (Py.any_char is_letter "O'Neil-Fox" = true) as H3 by (by vm_compute).
  split; [exact H1|]. split; [exact H2|]. split; [exact H3|].
  exact (C5_username_shape "Mary O'Neil-Fox" "O'Neil-Fox" H1 H2 H3).
Defined.

(** C5 as stated fails twice: a name with a full stop gives a candidate
    that does not match [^[a-z]+$], and the tenth homonym gets the
    suffix 10, which does not match [^[a-z]+[2-9][0-9]*$]. *)
Lemma C5_counterexample :
  (TestUsers.generate_username "John Smith Jr." = Ok "jjr." /\
   matches_base "jjr." = false) /\
  (TestUsers.unique_username
     {["jsmith"; "jsmith2"; "jsmith3"; "jsmith4"; "jsmith5"; "jsmith6"; "jsmith7";
       "jsmith8"; "jsmith9"]} "jsmith" = Ok "jsmith10" /\
   matches_suffixed digit_2_9 "jsmith10" = false).
Proof. repeat split; by vm_compute. Qed.


(** C6: for every set of used usernames and every candidate, the
    username recorded is the candidate itself when it is unused, and
    otherwise the candidate followed by the smallest integer [k >= 2]
    such that the combined string is unused. *)
Theorem C6_unique_username_smallest_suffix (used : gset string) (base : string) :
  ((base ∉ used) /\ TestUsers.unique_username used base = Ok base) \/
  (base ∈ used /\ exists k : nat,
     TestUsers.unique_username used base = Ok (base +:+ Py.str k) /\
     (2 <= k)%nat /\ (base +:+ Py.str k ∉ used) /\
     (forall j : nat, (2 <= j < k)%nat -> base +:+ Py.str j ∈ used)).
Proof. apply unique_username_spec. Qed.

(** C7: for every department of the vocabulary and in every state,
    [select_groups] returns a field made of 1 or 2 tokens separated by
    semicolons; every token belongs to the group vocabulary of the
    department, the tokens are pairwise distinct and they are in
    lexicographic order. *)
Theorem C7_select_groups_field (department : string) (w : world) :
  department ∈ TestUsers.DEPARTMENTS ->
  exists avail : list string,
    TestUsers.GROUPS !! department = Some avail /\
    exists (groups : string) (w' : world),
      TestUsers.select_groups department w = (Ok groups, w') /\
      groups_field_ok avail groups.
Proof.
  unfold TestUsers.DEPARTMENTS. intros Hd.
  repeat (apply elem_of_cons in Hd as [->|Hd]; [department_cases|]).
  by apply elem_of_nil in Hd.
Qed.

Lemma C7_witness :
  "Sales" ∈ TestUsers.DEPARTMENTS /\
  exists avail : list string,
    TestUsers.GROUPS !! "Sales" = Some avail /\
    exists (groups : string) (w' : world),
      TestUsers.select_groups "Sales" (Demo.start 1) = (Ok groups, w') /\
      groups_field_ok avail groups.
Proof.
  assert ("Sales" ∈ TestUsers.DEPARTMENTS) as H
    by (unfold TestUsers.DEPARTMENTS; repeat constructor).
  split; [exact H|]. exact (C7_select_groups_field "Sales" (Demo.start 1) H).
Defined.

(** C8 fails on the code: the docstring of [generate_expiry_date]
    promises a date 6 to 24 months ahead, but the call passes ['+6m'],
    which the Faker library reads as six minutes, so the window starts
    on the day of the run.  In the run of 2026-11-04 whose Faker
    instance draws the first date of the window, the expiry returned is
    2026-11-04 itself, less than 182 days after the day of the run. *)
Theorem C8_expiry_on_the_day_of_the_run :
  exists d : Z,
    fst (TestUsers.generate_expiry_date (Demo.start 0))
      = Ok (Datetime.strftime_Ymd d) /\
    Datetime.strftime_Ymd d = "2026-11-04" /\
    d = now (Demo.start 0) /\
    ~ (now (Demo.start 0) + 182 <= d).
Proof.
  exists (now (Demo.start 0)). split; [by vm_compute|]. split; [by vm_compute|].
  split; [done|]. lia.
Qed.

(** C9: every department of [DEPARTMENTS] is a key of [GROUPS], and
    [select_groups] returns a value on it in every state. *)
Theorem C9_select_groups_total (department : string) :
  department ∈ TestUsers.DEPARTMENTS ->
  is_Some (TestUsers.GROUPS !! department) /\
  forall w : world, exists (groups : string) (w' : world),
    TestUsers.select_groups department w = (Ok groups, w').
Proof.
  intros Hd. destruct (departments_groups department Hd) as (avail & Hav & Hne).
  split; [by exists avail|]. intros w. by eapply select_groups_total.
Qed.

Lemma C9_witness :
  "Legal" ∈ TestUsers.DEPARTMENTS /\
  is_Some (TestUsers.GROUPS !! "Legal") /\
  forall w : world, exists (groups : string) (w' : world),
    TestUsers.select_groups "Legal" w = (Ok groups, w').
Proof.
  assert ("Legal" ∈ TestUsers.DEPARTMENTS) as H
    by (unfold TestUsers.DEPARTMENTS; repeat constructor).
  split; [exact H|]. exact (C9_select_groups_total "Legal" H).
Defined.

(** C10: the collision loop of [generate_users] terminates for every
    finite set of used usernames: whenever the fuel is at least the size
    of the set, the loop started at suffix 2 answers a suffix [k >= 2]
    whose username is free, having found every smaller suffix taken. *)
Theorem C10_suffix_loop_terminates (used : gset string) (username : string)
    (fuel : nat) :
  (size used <= fuel)%nat ->
  exists k : nat,
    TestUsers.suffix_loop fuel used username 2 = Ok k /\
    (2 <= k)%nat /\
    (username +:+ Py.str k ∉ used) /\
    (forall j : nat, (2 <= j < k)%nat -> username +:+ Py.str j ∈ used).
Proof. intros Hfuel. by apply suffix_loop_finds. Qed.

Lemma C10_witness :
  (size ({["jsmith"; "jsmith2"; "jsmith3"]} : gset string) <= 3)%nat /\
  exists k : nat,
    TestUsers.suffix_loop 3 {["jsmith"; "jsmith2"; "jsmith3"]} "jsmith" 2 = Ok k /\
    (2 <= k)%nat /\
    ("jsmith" +:+ Py.str k ∉ ({["jsmith"; "jsmith2"; "jsmith3"]} : gset string)) /\
    (forall j : nat, (2 <= j < k)%nat ->
       "jsmith" +:+ Py.str j ∈ ({["jsmith"; "jsmith2"; "jsmith3"]} : gset string)).
Proof.
  assert (size ({["jsmith"; "jsmith2"; "jsmith3"]} : gset string) <= 3)%nat as H
    by (vm_compute; lia).
  split; [exact H|].
  exact (C10_suffix_loop_terminates {["jsmith"; "jsmith2"; "jsmith3"]} "jsmith" 3 H).
Defined.

(** * Further properties of the code *)

(** ** The candidate username on every input *)

Lemma flush_nil (cur : string) : Py.flush cur = [] <-> cur = EmptyString.
Proof. by destruct cur. Qed.

Lemma split_go_nil (s : string) : forall cur,
  Py.split_go cur s = [] <-> cur = EmptyString /\ Py.all_chars Py.isspace s = true.
Proof.
  induction s as [|c s IH]; intros cur; cbn [Py.split_go Py.all_chars].
  - rewrite flush_nil. tauto.
  - destruct (Py.isspace c) eqn:E; cbn [andb].
    + rewrite app_nil, flush_nil, IH. tauto.
    + rewrite IH. split; [|intros [_ [=]]].
      intros [H _]. by destruct cur.
Qed.

Lemma lower_all_space (s : string) :
  Py.all_chars Py.isspace (Py.lower s) = Py.all_chars Py.isspace s.
Proof.
  induction s as [|c s IH]; [done|]. cbn [Py.lower Py.all_chars].
  by rewrite lower_char_space, IH.
Qed.

Lemma generate_username_outcome (full_name : string) :
  (Py.all_chars Py.isspace full_name = true /\
   TestUsers.generate_username full_name = Raise IndexError) \/
  (Py.all_chars Py.isspace full_name = false /\
   exists base, TestUsers.generate_username full_name = Ok base).
Proof.
  destruct (Py.all_chars Py.isspace full_name) eqn:E.
  - left. split; [done|]. unfold TestUsers.generate_username.
    assert (Py.split (Py.lower full_name) = []) as ->; [|done].
    apply split_go_nil. by rewrite lower_all_space.
  - right. split; [done|]. apply generate_username_total.
    intros H. apply split_go_nil in H as [_ H]. rewrite lower_all_space in H. congruence.
Qed.

Lemma lower_char_not_upper (c : ascii) : Py.is_upper (Py.lower_char c) = false.
Proof. destruct c as [[] [] [] [] [] [] [] []]; by vm_compute. Qed.

Lemma lower_char_idem (c : ascii) : Py.lower_char (Py.lower_char c) = Py.lower_char c.
Proof. unfold Py.lower_char at 1. by rewrite lower_char_not_upper. Qed.

Lemma lower_idem (s : string) : Py.lower (Py.lower s) = Py.lower s.
Proof.
  induction s as [|c s IH]; [done|]. cbn [Py.lower]. by rewrite lower_char_idem, IH.
Qed.

Lemma lower_word_chars (s : string) :
  Py.all_chars (fun c => word_char c || Py.isspace c) (Py.lower s) = true.
Proof.
  induction s as [|c s IH]; [done|]. cbn [Py.lower Py.all_chars]. rewrite IH, andb_true_r.
  unfold word_char. rewrite lower_char_not_upper. by destruct (Py.isspace _).
Qed.

Lemma remove_char_keeps (p : ascii -> bool) (c : ascii) (s : string) :
  Py.all_chars p s = true -> Py.all_chars p (Py.remove_char c s) = true.
Proof.
  induction s as [|a s IH]; [done|]. cbn [Py.remove_char Py.all_chars].
  intros [Ha Hs]%andb_true_iff. destruct (Ascii.eqb a c); [by apply IH|].
  cbn [Py.all_chars]. by rewrite Ha, (IH Hs).
Qed.

Lemma remove_char_gone (c : ascii) (s : string) :
  Py.all_chars (fun a => negb (Ascii.eqb a c)) (Py.remove_char c s) = true.
Proof.
  induction s as [|a s IH]; [done|]. cbn [Py.remove_char].
  destruct (Ascii.eqb a c) eqn:E; [done|]. cbn [Py.all_chars]. by rewrite E, IH.
Qed.

Lemma all_chars_and (p q : ascii -> bool) (s : string) :
  Py.all_chars p s = true -> Py.all_chars q s = true ->
  Py.all_chars (fun c => p c && q c) s = true.
Proof.
  induction s as [|a s IH]; [done|]. cbn [Py.all_chars].
  intros [Hp Hs]%andb_true_iff [Hq Hs']%andb_true_iff. by rewrite Hp, Hq, IH.
Qed.

Lemma generate_username_chars (full_name base : string) :
  TestUsers.generate_username full_name = Ok base ->
  Py.all_chars username_char base = true.
Proof.
  unfold TestUsers.generate_username. intros H.
  pose proof (split_go_chars word_char (Py.lower full_name) EmptyString
                (lower_word_chars full_name) eq_refl) as Htok.
  fold (Py.split (Py.lower full_name)) in Htok.
  assert (exists s, Py.all_chars word_char s = true /\
            base = Py.remove_char "-" (Py.remove_char "'" s)) as (s & Hs & ->).
  { destruct (Py.split (Py.lower full_name)) as [|p0 parts] eqn:E; [done|].
    destruct (2 <=? length (p0 :: parts))%nat.
    - cbn [Py.first head of_option res_bind] in H.
      destruct p0 as [|c p0]; [done|]. cbn [Py.first_char res_bind] in H.
      unfold Py.last in H. destruct (list.last (String c p0 :: parts)) as [pl|] eqn:El;
        [|done].
      cbn [of_option res_bind] in H. injection H as <-.
      exists (String c pl). split; [|done]. cbn [Py.all_chars].
      rewrite Forall_forall in Htok.
      pose proof (Htok (String c p0) ltac:(left)) as H0. cbn [Py.all_chars] in H0.
      apply andb_true_iff in H0 as [-> _].
      apply last_Some_elem_of in El. by rewrite (Htok pl El).
    - cbn [Py.first head of_option res_bind] in H. injection H as <-.
      exists p0. split; [|done]. rewrite Forall_forall in Htok. apply Htok. left. }
  unfold username_char.
  apply all_chars_and; [apply all_chars_and|].
  - by do 2 apply remove_char_keeps.
  - apply remove_char_keeps, remove_char_gone.
  - apply remove_char_gone.
Qed.

Lemma generate_username_lower (full_name : string) :
  TestUsers.generate_username (Py.lower full_name)
    = TestUsers.generate_username full_name.
Proof. unfold TestUsers.generate_username. by rewrite lower_idem. Qed.

(** ** Rows, field by field *)

Lemma choice_inv {A : Type} (l : list A) (g g' : Random.state) (x : A) :
  Random.choice l g = (Ok x, g') -> x ∈ l.
Proof.
  unfold Random.choice. destruct l as [|a l]; [done|].
  destruct (Random.randbelow _ g) as [r g1].
  destruct ((a :: l) !! r) as [y|] eqn:E; [|done].
  intros [= <- _]. by eapply list_elem_of_lookup_2.
Qed.

Lemma select_groups_field_ok (department : string) (w : world) :
  department ∈ TestUsers.DEPARTMENTS ->
  exists avail : list string,
    TestUsers.GROUPS !! department = Some avail /\
    exists (groups : string) (w' : world),
      TestUsers.select_groups department w = (Ok groups, w') /\
      groups_field_ok avail groups.
Proof.
  unfold TestUsers.DEPARTMENTS. intros Hd.
  repeat (apply elem_of_cons in Hd as [->|Hd]; [department_cases|]).
  by apply elem_of_nil in Hd.
Qed.

Lemma generate_expiry_date_inv (w w' : world) (e : string) :
  TestUsers.generate_expiry_date w = (Ok e, w') ->
  exists d, e = Datetime.strftime_Ymd d /\
    now w <= d <= now w + 730 /\ d <= Datetime.MAXORDINAL.
Proof.
  unfold TestUsers.generate_expiry_date, bind, with_fake_res, ret.
  destruct (Faker.date_between _ _ _ _) as [[d| |] f'] eqn:E; [|done..].
  intros [= <- _]. exists d. split; [done|].
  apply date_between_range in E as (a & b & Ha & Hb & Hab).
  revert Ha Hb. unfold Faker.parse_date, Datetime.add_days.
  change (Faker.offset_days 0 0 6) with 0. change (Faker.offset_days 2 0 0) with 730.
  destruct (_ && _); [|done]. intros [= <-].
  destruct (_ && _) eqn:E2; [|done]. intros [= <-]. lia.
Qed.

Lemma user_step_row (out : string) (used used' : gset string) (w w' : world) :
  TestUsers.user_step out used w = (Ok used', w') ->
  exists rw,
    files w' = alter (fun rows => rows ++ [rw]) out (files w) /\
    used' = {[username_of rw]} ∪ used /\
    now w' = now w /\
    step_row used w rw /\ row_consistent rw /\ expiry_in_window (now w) rw.
Proof.
  unfold TestUsers.user_step. intros H.
  apply bind_inv in H as [(full_name & w1 & H1 & H)|[(? & _ & [=])|[_ [=]]]].
  injection H1 as <- <-.
  apply bind_inv in H as [(base & w2 & H2 & H)|[(? & _ & [=])|[_ [=]]]].
  apply lift_inv in H2 as [Hbase ->].
  apply bind_inv in H as [(u & w3 & H3 & H)|[(? & _ & [=])|[_ [=]]]].
  apply lift_inv in H3 as [Hu ->].
  apply bind_inv in H as [(d & w4 & H4 & H)|[(? & _ & [=])|[_ [=]]]].
  pose proof H4 as H4'. apply with_rng_frame in H4' as [[Hf4 Hn4] Hk4].
  assert (d ∈ TestUsers.DEPARTMENTS) as Hd.
  { revert H4. unfold with_rng. destruct (Random.choice _ _) as [r g'] eqn:E.
    intros [= -> _]. by apply choice_inv in E. }
  apply bind_inv in H as [(g & w5 & H5 & H)|[(? & _ & [=])|[_ [=]]]].
  pose proof H5 as H5'. apply select_groups_frame in H5' as [[Hf5 Hn5] Hk5].
  destruct (select_groups_field_ok d w4 Hd) as (avail & Hav & g0 & w50 & Hg0 & Hok).
  rewrite H5 in Hg0. injection Hg0 as <- <-.
  apply bind_inv in H as [(ex & w6 & H6 & H)|[(? & _ & [=])|[_ [=]]]].
  pose proof H6 as H6'. apply generate_expiry_date_frame in H6' as [Hf6 Hn6].
  apply generate_expiry_date_inv in H6 as (dt & -> & Hdt & Hmax).
  injection H as <- <-. simpl in *.
  eexists. split; [|split; [|split; [|split; [|split]]]].
  - unfold set_files. simpl. by rewrite Hf6, Hf5, Hf4.
  - done.
  - congruence.
  - exists base, u, d, g, (Datetime.strftime_Ymd dt). by repeat split.
  - split; [done|]. split; [done|]. split; [done|]. by exists avail.
  - exists dt. split; [done|]. split; [|done]. rewrite Hn5, Hn4 in Hdt. exact Hdt.
Qed.

Lemma users_loop_wf (fuel : nat) : forall (count : Z) (out : string)
    (used : gset string) (n : Z) (w w' : world) (r : res unit) (rows0 : list row),
  TestUsers.users_loop fuel count out used n w = (r, w') ->
  files w !! out = Some rows0 ->
  exists rows, files w' !! out = Some (rows0 ++ rows) /\
    Forall (fun rw => row_consistent rw /\ expiry_in_window (now w) rw) rows /\
    forall path, path <> out -> files w' !! path = files w !! path.
Proof.
  induction fuel as [|fuel IH]; intros count out used n w w' r rows0 H Hf; simpl in H.
  - exists []. rewrite app_nil_r.
    destruct (n <? count); injection H as <- <-; repeat split; auto.
  - destruct (n <? count).
    2:{ exists []. rewrite app_nil_r. injection H as <- <-. repeat split; auto. }
    apply bind_inv in H as [(used1 & w1 & H1 & H)|[(e & H1 & _)|[H1 _]]].
    + apply user_step_row in H1 as (rw & Hfiles & -> & Hnow & _ & Hrow & Hexp).
      destruct (IH _ _ _ _ _ _ _ (rows0 ++ [rw]) H) as (rows & Hrows & Hall & Hother).
      { rewrite Hfiles, lookup_alter_eq, Hf. done. }
      exists (rw :: rows). rewrite <- app_assoc in Hrows. repeat split.
      * done.
      * constructor; [done|]. by rewrite <- Hnow.
      * intros path Hp. rewrite (Hother path Hp), Hfiles. by apply lookup_alter_ne.
    + apply user_step_inv in H1 as [_ Hfiles]. exists []. rewrite app_nil_r, Hfiles.
      repeat split; auto.
    + apply user_step_inv in H1 as [_ Hfiles]. exists []. rewrite app_nil_r, Hfiles.
      repeat split; auto.
Qed.

(** ** A name without a word stops the run *)

Lemma name_at_tick (f : Faker.state) : Faker.name_at (Faker.tick f) = Faker.name_at f.
Proof. done. Qed.

Lemma pos_tick (f : Faker.state) : Faker.pos (Faker.tick f) = S (Faker.pos f).
Proof. done. Qed.

Lemma user_step_blank (out : string) (used : gset string) (w : world) :
  Py.all_chars Py.isspace (Faker.name_at (fake w) (Faker.pos (fake w))) = true ->
  exists w', TestUsers.user_step out used w = (Raise IndexError, w') /\
    files w' = files w.
Proof.
  intros Hblank.
  destruct (generate_username_outcome
              (Faker.name_at (fake w) (Faker.pos (fake w)))) as [[_ H]|[H _]];
    [|congruence].
  unfold TestUsers.user_step, bind at 1. simpl.
  unfold bind at 1, lift at 1. rewrite H. eauto.
Qed.

Lemma users_loop_blank (i : nat) : forall (fuel : nat) (count : Z) (out : string)
    (used : gset string) (n : Z) (w : world) (rows0 : list row),
  (forall k, (k < i)%nat ->
     Py.all_chars Py.isspace
       (Faker.name_at (fake w) (Faker.pos (fake w) + 2 * k)%nat) = false) ->
  Py.all_chars Py.isspace
    (Faker.name_at (fake w) (Faker.pos (fake w) + 2 * i)%nat) = true ->
  expiry_window_exists (now w) ->
  n + Z.of_nat i < count ->
  (Z.to_nat (count - n) <= fuel)%nat ->
  files w !! out = Some rows0 ->
  exists w' rows,
    TestUsers.users_loop fuel count out used n w = (Raise IndexError, w') /\
    files w' !! out = Some (rows0 ++ rows) /\ length rows = i.
Proof.
  induction i as [|i IH]; intros fuel count out used n w rows0 Hbefore Hblank Hnow
    Hcount Hfuel Hf.
  - destruct fuel as [|fuel]; [lia|]. simpl.
    destruct (n <? count) eqn:E; [|lia].
    rewrite Nat.mul_0_r, Nat.add_0_r in Hblank.
    destruct (user_step_blank out used w Hblank) as (w' & Hstep & Hfiles).
    unfold bind. rewrite Hstep. exists w', []. by rewrite app_nil_r, Hfiles.
  - destruct fuel as [|fuel]; [lia|]. simpl.
    destruct (n <? count) eqn:E; [|lia].
    assert (Py.split (Py.lower (Faker.name_at (fake w) (Faker.pos (fake w)))) <> [])
      as Hword.
    { intros H. apply split_go_nil in H as [_ H]. rewrite lower_all_space in H.
      specialize (Hbefore 0%nat ltac:(lia)).
      rewrite Nat.mul_0_r, Nat.add_0_r in Hbefore. congruence. }
    destruct (user_step_total out used w Hword Hnow) as (used1 & w1 & H1).
    unfold bind. rewrite H1.
    apply user_step_inv in H1 as [Hn1 (rw & _ & _ & Hfiles & Hfake)].
    destruct (IH fuel count out used1 (n + 1) w1 (rows0 ++ [rw]))
      as (w' & rows & Hrun & Hrows & Hlen).
    + intros k Hk. rewrite Hfake, !name_at_tick, !pos_tick.
      replace (S (S (Faker.pos (fake w))) + 2 * k)%nat
        with (Faker.pos (fake w) + 2 * S k)%nat by lia.
      apply Hbefore. lia.
    + rewrite Hfake, !name_at_tick, !pos_tick.
      replace (S (S (Faker.pos (fake w))) + 2 * i)%nat
        with (Faker.pos (fake w) + 2 * S i)%nat by lia.
      done.
    + by rewrite Hn1.
    + lia.
    + lia.
    + rewrite Hfiles, lookup_alter_eq, Hf. done.
    + exists w', (rw :: rows). rewrite <- app_assoc in Hrows.
      repeat split; [done | done | simpl; lia].
Qed.

(** ** Homonyms *)

Lemma append_self_inv (s t : string) : s +:+ t = s -> t = EmptyString.
Proof.
  induction s as [|c s IH]; [done|].
  change (String c s +:+ t) with (String c (s +:+ t)). intros [= H]. by apply IH.
Qed.

Lemma str_nonempty (k : nat) : Py.str k <> EmptyString.
Proof.
  destruct k as [|k]; [by vm_compute|].
  destruct (str_shape (S k)) as (d & ds & -> & _); [lia | done].
Qed.

Lemma homonym_inj (base : string) (i j : nat) :
  homonym base i = homonym base j -> i = j.
Proof.
  destruct i as [|i], j as [|j]; simpl; try done.
  - intros H. symmetry in H. apply append_self_inv in H. by apply str_nonempty in H.
  - intros H. apply append_self_inv in H. by apply str_nonempty in H.
  - intros H%append_str_inj. lia.
Qed.

Lemma elem_of_homonyms_upto (base : string) (j : nat) (x : string) :
  x ∈ homonyms_upto base j <-> exists i, (i < j)%nat /\ x = homonym base i.
Proof.
  induction j as [|j IH]; simpl.
  - split; [set_solver|]. intros (i & Hi & _). lia.
  - rewrite elem_of_union, elem_of_singleton, IH. split.
    + intros [->|(i & Hi & ->)]; [exists j | exists i]; split; (lia || done).
    + intros (i & Hi & ->). destruct (decide (i = j)) as [->|Hne]; [by left|].
      right. exists i. split; [lia|done].
Qed.

Lemma unique_username_homonym (base : string) (j : nat) :
  TestUsers.unique_username (homonyms_upto base j) base = Ok (homonym base j).
Proof.
  destruct (unique_username_spec (homonyms_upto base j) base)
    as [[Hfree H]|[Hin (k & H & Hk & Hfree & Hall)]].
  - destruct j as [|j]; [done|]. exfalso. apply Hfree.
    apply elem_of_homonyms_upto. exists 0%nat. split; [lia|done].
  - rewrite H. f_equal.
    destruct j as [|j]; [set_solver|].
    assert (k = S (S j)) as ->; [|done].
    destruct (Nat.lt_trichotomy k (S (S j))) as [Hlt|[->|Hgt]]; [|done|].
    + exfalso. apply Hfree. apply elem_of_homonyms_upto.
      exists (k - 1)%nat. split; [lia|].
      destruct k as [|[|k]]; [lia..|].
      by replace (S (S k) - 1)%nat with (S k) by lia.
    + exfalso. specialize (Hall (S (S j)) ltac:(lia)).
      apply elem_of_homonyms_upto in Hall as (i & Hi & Heq).
      change (base +:+ Py.str (S (S j))) with (homonym base (S j)) in Heq.
      apply homonym_inj in Heq. lia.
Qed.

Lemma users_loop_homonyms (base : string) (fuel : nat) : forall (count : Z)
    (out : string) (j : nat) (n : Z) (w w' : world) (r : res unit)
    (rows0 : list row),
  (forall k, TestUsers.generate_username (Faker.name_at (fake w) k) = Ok base) ->
  TestUsers.users_loop fuel count out (homonyms_upto base j) n w = (r, w') ->
  files w !! out = Some rows0 ->
  exists rows, files w' !! out = Some (rows0 ++ rows) /\
    forall (i : nat) (rw : row), rows !! i = Some rw ->
      username_of rw = homonym base (j + i).
Proof.
  induction fuel as [|fuel IH]; intros count out j n w w' r rows0 Hnames H Hf;
    simpl in H.
  - exists []. rewrite app_nil_r.
    destruct (n <? count); injection H as <- <-; split; auto; by intros [|?] ?.
  - destruct (n <? count).
    2:{ exists []. rewrite app_nil_r. injection H as <- <-.
        split; auto; by intros [|?] ?. }
    apply bind_inv in H as [(used1 & w1 & H1 & H)|[(e & H1 & _)|[H1 _]]].
    + apply user_step_inv in H1 as [_ (rw & Hrow & -> & Hfiles & Hfake)].
      assert (username_of rw = homonym base j) as Hu.
      { destruct Hrow as (b & u & d & g & e & Hb & Hu & ->).
        rewrite Hnames in Hb. injection Hb as <-.
        rewrite unique_username_homonym in Hu. by injection Hu as <-. }
      rewrite Hu in H. change ({[homonym base j]} ∪ homonyms_upto base j)
        with (homonyms_upto base (S j)) in H.
      destruct (IH _ _ _ _ _ _ _ (rows0 ++ [rw]) ltac:(by rewrite Hfake) H)
        as (rows & Hrows & Hall).
      { rewrite Hfiles, lookup_alter_eq, Hf. done. }
      exists (rw :: rows). rewrite <- app_assoc in Hrows. split; [done|].
      intros [|i] rw' Hi; simpl in Hi.
      * injection Hi as <-. by rewrite Nat.add_0_r.
      * rewrite (Hall i rw' Hi). f_equal. lia.
    + apply user_step_inv in H1 as [_ Hfiles]. exists []. rewrite app_nil_r, Hfiles.
      split; auto; by intros [|?] ?.
    + apply user_step_inv in H1 as [_ Hfiles]. exists []. rewrite app_nil_r, Hfiles.
      split; auto; by intros [|?] ?.
Qed.

(** ** The users of generate_users.py *)

Lemma lower_not_upper (s : string) :
  Py.all_chars (fun c => negb (Py.is_upper c)) (Py.lower s) = true.
Proof.
  induction s as [|c s IH]; [done|]. cbn [Py.lower Py.all_chars].
  by rewrite lower_char_not_upper, IH.
Qed.

Lemma username_formats_not_upper (first_name last_name u : string) :
  u ∈ username_formats first_name last_name ->
  Py.all_chars (fun c => negb (Py.is_upper c)) u = true.
Proof.
  unfold username_formats. destruct first_name as [|c s]; [by intros ?%elem_of_nil|].
  intros H. repeat (apply elem_of_cons in H as [->|H]).
  - by rewrite all_chars_app, !lower_not_upper.
  - by rewrite !all_chars_app, !lower_not_upper.
  - cbn [Py.all_chars]. by rewrite lower_char_not_upper, lower_not_upper.
  - by apply elem_of_nil in H.
Qed.

Lemma users_generate_username_outcome (first_name last_name : string) (w : world) :
  (first_name = EmptyString /\
   Users.generate_username first_name last_name w = (Raise IndexError, w)) \/
  (first_name <> EmptyString /\
   exists u w', Users.generate_username first_name last_name w = (Ok u, w') /\
     u ∈ username_formats first_name last_name /\
     frame w w' /\ fake w' = fake w).
Proof.
  unfold Users.generate_username, bind, lift.
  destruct first_name as [|c s]; [by left|]. right. split; [done|].
  cbn [Py.first_char].
  match goal with |- context [with_rng (Random.choice ?l) w] =>
    destruct (choice_elem l (rng w)) as (u & g' & Hc & Hu); [done|] end.
  unfold with_rng. rewrite Hc. eexists _, _. split; [reflexivity|].
  split; [exact Hu|]. by repeat split.
Qed.

Lemma stable_ret {A : Type} (a : A) : stable (ret a).
Proof. by intros w w' r [= _ <-]. Qed.

Lemma stable_lift {A : Type} (r : res A) : stable (lift r).
Proof. by intros w w' r' [= _ <-]. Qed.

Lemma stable_bind {A B : Type} (m : M A) (k : A -> M B) :
  stable m -> (forall a, stable (k a)) -> stable (bind m k).
Proof.
  intros Hm Hk w w' r H.
  apply bind_inv in H as [(a & w1 & H1 & H)|[(e & H1 & _)|[H1 _]]].
  - apply Hm in H1 as (Hf1 & Hn1 & Hk1). apply Hk in H as (Hf & Hn & Hkk).
    by rewrite Hf, Hn, Hkk.
  - by apply Hm in H1.
  - by apply Hm in H1.
Qed.

Lemma stable_with_rng {A : Type} (f : Random.state -> res A * Random.state) :
  stable (with_rng f).
Proof.
  intros w w' r H. apply with_rng_frame in H as [[? ?] Hk]. by rewrite Hk.
Qed.

Lemma stable_provide {A : Type} (stream : Faker.state -> nat -> A) :
  stable (with_fake (Faker.provide stream)).
Proof. by intros w w' r [= _ <-]. Qed.

Lemma stable_date_between (s e : Faker.when) :
  stable (fun w => with_fake_res (Faker.date_between (now w) s e) w).
Proof.
  intros w w' r. unfold with_fake_res, Faker.date_between, Faker.provide.
  destruct (Faker.parse_date _ s); try (by intros [= _ <-]).
  destruct (Faker.parse_date _ e); try (by intros [= _ <-]).
  destruct (_ <? _); by intros [= _ <-].
Qed.

Lemma stable_users_generate_username (first_name last_name : string) :
  stable (Users.generate_username first_name last_name).
Proof.
  apply stable_bind; [apply stable_lift|]. intros c. apply stable_with_rng.
Qed.

Lemma stable_generate_user : stable Users.generate_user.
Proof.
  unfold Users.generate_user.
  repeat first
    [ apply stable_ret
    | apply stable_provide
    | apply stable_with_rng
    | apply stable_users_generate_username
    | apply stable_date_between
    | apply stable_bind; [|intros ?] ].
Qed.

Lemma with_rng_choice_inv {A : Type} (l : list A) (w w' : world) (x : A) :
  with_rng (Random.choice l) w = (Ok x, w') -> x ∈ l.
Proof.
  unfold with_rng. destruct (Random.choice l (rng w)) as [r g'] eqn:E.
  intros [= -> _]. by apply choice_inv in E.
Qed.

Lemma generate_user_consistent (w w' : world) (u : Users.user) :
  Users.generate_user w = (Ok u, w') -> user_consistent (now w) u.
Proof.
  intros Hrun. pose proof (generate_user_start_date w w' u Hrun) as Hdate.
  revert Hrun. unfold Users.generate_user. intros H.
  apply bind_inv in H as [(fn & w1 & H1 & H)|[(e & _ & [=])|[_ [=]]]].
  apply bind_inv in H as [(ln & w2 & H2 & H)|[(e & _ & [=])|[_ [=]]]].
  apply bind_inv in H as [(un & w3 & H3 & H)|[(e & _ & [=])|[_ [=]]]].
  apply bind_inv in H as [(em & w4 & H4 & H)|[(e & _ & [=])|[_ [=]]]].
  apply bind_inv in H as [(ph & w5 & H5 & H)|[(e & _ & [=])|[_ [=]]]].
  apply bind_inv in H as [(dp & w6 & H6 & H)|[(e & _ & [=])|[_ [=]]]].
  apply bind_inv in H as [(ro & w7 & H7 & H)|[(e & _ & [=])|[_ [=]]]].
  apply bind_inv in H as [(sd & w8 & H8 & H)|[(e & _ & [=])|[_ [=]]]].
  apply bind_inv in H as [(id & w9 & H9 & H)|[(e & _ & [=])|[_ [=]]]].
  injection H as <- _. simpl in *.
  apply with_rng_choice_inv in H6, H7.
  destruct (users_generate_username_outcome fn ln w2)
    as [[_ Hr]|[_ (u0 & w0 & Hr & Hu & _)]]; rewrite Hr in H3; [done|].
  injection H3 as <- _. unfold user_consistent. simpl. repeat split; (done || lia).
Qed.

Lemma generate_user_total (w : world) :
  Faker.first_name_at (fake w) (Faker.pos (fake w)) <> EmptyString ->
  731 < now w <= Datetime.MAXORDINAL ->
  exists u w', Users.generate_user w = (Ok u, w').
Proof.
  unfold Datetime.MAXORDINAL. intros Hfirst Hnow.
  unfold Users.generate_user, bind at 1. simpl.
  unfold bind at 1. simpl.
  unfold bind at 1.
  match goal with |- context [Users.generate_username ?a ?b ?w0] =>
    destruct (users_generate_username_outcome a b w0)
      as [[? _]|[_ (un & w3 & -> & _ & [Hf3 Hn3] & Hk3)]]; [done|] end.
  unfold bind at 1. simpl. unfold bind at 1. simpl. unfold bind at 1.
  match goal with |- context [with_rng (Random.choice Users.DEPARTMENTS) ?w0] =>
    pose proof (choice_elem Users.DEPARTMENTS (rng w0)) as (dp & g6 & Hc6 & _);
      [done|] end.
  unfold with_rng at 1. rewrite Hc6. unfold bind at 1.
  match goal with |- context [with_rng (Random.choice Users.ROLES) ?w0] =>
    pose proof (choice_elem Users.ROLES (rng w0)) as (ro & g7 & Hc7 & _);
      [done|] end.
  unfold with_rng at 1. rewrite Hc7. simpl in *. unfold bind at 1.
  unfold with_fake_res, Faker.date_between, Faker.parse_date, Datetime.add_days,
    Datetime.MAXORDINAL. simpl now. rewrite Hn3.
  change (Faker.offset_days (-2) 0 0) with (-731).
  destruct ((0 <? now w + -731) && (now w + -731 <=? 3652059)) eqn:E1; [|lia].
  destruct (now w <? now w + -731) eqn:E2; [lia|].
  unfold Faker.provide, bind, with_fake, ret. simpl.
  eexists _, _. reflexivity.
Qed.

Lemma generate_all_inv (n : nat) : forall (users : list Users.user) (w w' : world)
    (r : res (list Users.user)),
  Users.generate_all n users w = (r, w') ->
  files w' = files w /\ now w' = now w /\
  forall l, r = Ok l ->
    exists new, l = users ++ new /\ length new = n /\
      Forall (user_consistent (now w)) new.
Proof.
  induction n as [|n IH]; intros users w w' r H; simpl in H.
  - injection H as <- <-. repeat split. intros l [= <-].
    exists []. by rewrite app_nil_r.
  - apply bind_inv in H as [(u & w1 & H1 & H)|[(e & H1 & ->)|[H1 ->]]].
    + pose proof (stable_generate_user _ _ _ H1) as (Hf1 & Hn1 & _).
      apply generate_user_consistent in H1.
      apply IH in H as (Hf & Hn & Hl).
      split; [congruence|]. split; [congruence|].
      intros l Hr. destruct (Hl l Hr) as (new & -> & Hlen & Hall).
      exists (u :: new). rewrite <- app_assoc. repeat split; [simpl; lia|].
      constructor; [done|]. by rewrite <- Hn1.
    + apply stable_generate_user in H1 as (? & ? & _). by repeat split.
    + apply stable_generate_user in H1 as (? & ? & _). by repeat split.
Qed.

Lemma generate_all_total (n : nat) : forall (users : list Users.user) (w : world),
  (forall k, Faker.first_name_at (fake w) k <> EmptyString) ->
  731 < now w <= Datetime.MAXORDINAL ->
  exists l w', Users.generate_all n users w = (Ok l, w').
Proof.
  induction n as [|n IH]; intros users w Hfirst Hnow; simpl.
  - unfold ret. eauto.
  - destruct (generate_user_total w (Hfirst _) Hnow) as (u & w1 & H1).
    unfold bind. rewrite H1.
    pose proof (stable_generate_user _ _ _ H1) as (_ & Hn1 & Hs1).
    apply IH; [by rewrite Hs1 | by rewrite Hn1].
Qed.

Lemma write_all_spec (path : string) (users : list Users.user) : forall w : world,
  exists w', Users.write_all path users w = (Ok tt, w') /\
    now w' = now w /\
    files w' !! path = (fun rows => rows ++ (Users.user_row <$> users)) <$> files w !! path /\
    forall other, other <> path -> files w' !! other = files w !! other.
Proof.
  induction users as [|u users IH]; intros w; simpl.
  - exists w. repeat split. destruct (files w !! path); simpl; [|done].
    by rewrite app_nil_r.
  - unfold bind, writerow.
    destruct (IH (set_files (alter (fun rows => rows ++ [Users.user_row u]) path (files w)) w))
      as (w' & Hrun & Hnow & Hpath & Hother).
    exists w'. rewrite Hrun. repeat split; [done| |].
    + rewrite Hpath. simpl. rewrite lookup_alter_eq.
      destruct (files w !! path); simpl; [|done]. by rewrite <- app_assoc.
    + intros other Hne. rewrite (Hother other Hne). simpl. by apply lookup_alter_ne.
Qed.

Lemma main_outcome (w w' : world) (r : res unit) :
  Users.main w = (r, w') ->
  (r <> Ok tt /\ files w' = files w) \/
  (r = Ok tt /\ exists users : list Users.user,
     length users = Users.NUM_USERS /\
     Forall (user_consistent (now w)) users /\
     files w' = <[Users.OUTPUT_FILE := Users.fieldnames :: (Users.user_row <$> users)]>
                  (files w)).
Proof.
  unfold Users.main. intros H.
  apply bind_inv in H as [(users & w1 & H1 & H)|[(e & H1 & ->)|[H1 ->]]].
  - right. apply generate_all_inv in H1 as (Hf1 & Hn1 & Hl).
    destruct (Hl users eq_refl) as (new & Hnew & Hlen & Hall). simpl in Hnew. subst new.
    unfold bind, open_w, writerow in H.
    match type of H with Users.write_all ?p ?u ?w0 = _ =>
      destruct (write_all_spec p u w0) as (w2 & Hrun & _ & Hpath & Hother) end.
    rewrite Hrun in H. injection H as <- <-. split; [done|].
    exists users. repeat split; [done..|].
    apply map_eq. intros path. destruct (decide (path = Users.OUTPUT_FILE)) as [->|Hne].
    + rewrite Hpath, lookup_insert_eq. simpl.
      by rewrite lookup_alter_eq, lookup_insert_eq.
    + rewrite (Hother path Hne), lookup_insert_ne by done. simpl.
      rewrite lookup_alter_ne, lookup_insert_ne by done. by rewrite Hf1.
  - left. apply generate_all_inv in H1 as (? & _). by split.
  - left. apply generate_all_inv in H1 as (? & _). by split.
Qed.

Lemma main_total (w : world) :
  (forall k, Faker.first_name_at (fake w) k <> EmptyString) ->
  731 < now w <= Datetime.MAXORDINAL ->
  exists w', Users.main w = (Ok tt, w').
Proof.
  intros Hfirst Hnow. unfold Users.main.
  destruct (generate_all_total Users.NUM_USERS [] w Hfirst Hnow) as (l & w1 & H1).
  unfold bind at 1. rewrite H1. unfold bind, open_w, writerow.
  match goal with |- context [Users.write_all ?p ?u ?w0] =>
    destruct (write_all_spec p u w0) as (w2 & -> & _) end.
  eauto.
Qed.

(** ** The sample *)

Lemma rstrip_spec (s : string) :
  exists t, s = rstrip s +:+ t /\ Py.all_chars Py.isspace t = true.
Proof.
  induction s as [|c s (t & Hs & Ht)]; [by exists EmptyString|].
  cbn [rstrip]. destruct (rstrip s) as [|a r] eqn:E.
  - destruct (Py.isspace c) eqn:Ec.
    + exists (String c s). split; [done|]. cbn [Py.all_chars].
      rewrite Ec. simpl in Hs. by rewrite Hs.
    + exists t. split; [|done]. simpl in Hs. by rewrite Hs at 1.
  - exists t. split; [|done]. by rewrite Hs at 1.
Qed.

Lemma show_sample_take (lines : list string) : forall i : nat,
  (i <= 3)%nat ->
  show_sample i lines = (fun line => "  " +:+ rstrip line) <$> take (4 - i) lines.
Proof.
  induction lines as [|line rest IH]; intros i Hi.
  - by rewrite take_nil.
  - cbn [show_sample]. destruct (3 <=? i)%nat eqn:E.
    + apply Nat.leb_le in E. assert (i = 3%nat) as -> by lia. done.
    + apply Nat.leb_gt in E. rewrite (IH (S i)) by lia.
      replace (4 - i)%nat with (S (4 - S i)) by lia. done.
Qed.

Lemma rstrip_no_trailing (s : string) : forall (p : string) (c : ascii),
  rstrip s = p +:+ String c EmptyString -> Py.isspace c = false.
Proof.
  induction s as [|a s IH]; intros p c.
  - by destruct p.
  - cbn [rstrip]. destruct (rstrip s) as [|b r] eqn:E.
    + destruct (Py.isspace a) eqn:Ea; [by destruct p|].
      destruct p as [|? [|? ?]]; [|done..]. by intros [= <-].
    + destruct p as [|? p]; [done|].
      change (String a0 p +:+ String c EmptyString)
        with (String a0 (p +:+ String c EmptyString)).
      intros [= _ H]. by apply (IH p c).
Qed.

(** ** Runs of generate_test_users.py *)

Lemma length_append (s t : string) :
  String.length (s +:+ t) = (String.length s + String.length t)%nat.
Proof.
  induction s as [|a s IH]; [done|].
  change (String a s +:+ t) with (String a (s +:+ t)). simpl. by rewrite IH.
Qed.

Lemma append_cancel_r (s : string) : forall t r : string,
  s +:+ r = t +:+ r -> s = t.
Proof.
  induction s as [|a s IH]; intros [|b t] r H; [done| | |].
  - assert (String.length (EmptyString +:+ r) = String.length (String b t +:+ r))
      as Hl by (by rewrite H).
    rewrite !length_append in Hl. simpl in Hl. lia.
  - assert (String.length (String a s +:+ r) = String.length (EmptyString +:+ r))
      as Hl by (by rewrite H).
    rewrite !length_append in Hl. simpl in Hl. lia.
  - change (String a (s +:+ r) = String b (t +:+ r)) in H.
    injection H as -> H. f_equal. by eapply IH.
Qed.

Lemma groups_keys : dom TestUsers.GROUPS = list_to_set TestUsers.DEPARTMENTS.
Proof. apply (bool_decide_unpack _). by vm_compute. Qed.

Lemma generate_users_rows (count : Z) (output_file : string) (w : world) :
  exists rows : list row,
    files (snd (TestUsers.generate_users count output_file w)) !! output_file
      = Some (TestUsers.header :: rows) /\
    NoDup (username_of <$> rows) /\
    Forall (fun rw => row_consistent rw /\ expiry_in_window (now w) rw) rows /\
    forall path, path <> output_file ->
      files (snd (TestUsers.generate_users count output_file w)) !! path
        = files w !! path.
Proof.
  destruct (TestUsers.generate_users count output_file w) as [r w'] eqn:Hrun.
  unfold TestUsers.generate_users, bind, open_w, writerow in Hrun.
  fold (bind (A := gset string) (B := unit)) in Hrun.
  match type of Hrun with
  | TestUsers.users_loop ?f ?c ?o ?u ?n ?w0 = _ =>
      assert (files w0 !! o = Some [TestUsers.header]) as Hf
        by (unfold set_files; simpl; by rewrite alter_insert_eq, lookup_insert_eq);
      destruct (users_loop_rows f c o u n w0 w' r [TestUsers.header] Hrun Hf)
        as (rows & Hfile & Hnd & _ & _);
      destruct (users_loop_wf f c o u n w0 w' r [TestUsers.header] Hrun Hf)
        as (rows' & Hfile' & Hall & Hother)
  end.
  rewrite Hfile in Hfile'. injection Hfile' as <-.
  exists rows. simpl. repeat split; [done..|].
  intros path Hne. rewrite (Hother path Hne). unfold set_files. simpl.
  rewrite lookup_alter_ne, lookup_insert_ne; done.
Qed.

(** X1: [generate_username] of generate_test_users.py raises
    [IndexError] on a name that is empty or made of white space only,
    and returns a username on every other name. *)
Theorem X1_generate_username_blank (full_name : string) :
  (Py.all_chars Py.isspace full_name = true /\
   TestUsers.generate_username full_name = Raise IndexError) \/
  (Py.all_chars Py.isspace full_name = false /\
   exists base, TestUsers.generate_username full_name = Ok base).
Proof. apply generate_username_outcome. Qed.

(** X2: a username [generate_username] returns holds no white space,
    no upper-case ASCII letter, no apostrophe and no hyphen, whatever
    the name. *)
Theorem X2_generate_username_chars (full_name base : string) :
  TestUsers.generate_username full_name = Ok base ->
  Py.all_chars username_char base = true.
Proof. apply generate_username_chars. Qed.

Lemma X2_witness :
  TestUsers.generate_username "Dr. Anne-Marie  O'NEIL" = Ok "doneil" /\
  Py.all_chars username_char "doneil" = true.
Proof.
  assert (TestUsers.generate_username "Dr. Anne-Marie  O'NEIL" = Ok "doneil") as H
    by (by vm_compute).
  split; [exact H|].
  exact (X2_generate_username_chars "Dr. Anne-Marie  O'NEIL" "doneil" H).
Defined.

(** X3: [generate_username] does not look at the case of the ASCII
    letters of a name: the lower-cased name gives the same outcome. *)
Theorem X3_generate_username_case (full_name : string) :
  TestUsers.generate_username (Py.lower full_name)
    = TestUsers.generate_username full_name.
Proof. apply generate_username_lower. Qed.

(** X4: in every run of [generate_users], however it ends, every row
    written after the header has six fields, its email is its username
    followed by [@techcorp.com], its department is one of [DEPARTMENTS]
    and its groups field is made of 1 or 2 distinct, sorted groups of
    that very department. *)
Theorem X4_rows_consistent (count : Z) (output_file : string) (w : world) :
  exists rows : list row,
    files (snd (TestUsers.generate_users count output_file w)) !! output_file
      = Some (TestUsers.header :: rows) /\
    Forall row_consistent rows.
Proof.
  destruct (generate_users_rows count output_file w) as (rows & Hfile & _ & Hall & _).
  exists rows. split; [done|]. eapply Forall_impl; [exact Hall|]. by intros rw [? _].
Qed.

(** X5: in every run of [generate_users] the emails of the rows written
    are pairwise distinct. *)
Theorem X5_emails_distinct (count : Z) (output_file : string) (w : world) :
  exists rows : list row,
    files (snd (TestUsers.generate_users count output_file w)) !! output_file
      = Some (TestUsers.header :: rows) /\
    NoDup (email_of <$> rows).
Proof.
  destruct (generate_users_rows count output_file w) as (rows & Hfile & Hnd & Hall & _).
  exists rows. split; [done|].
  assert (email_of <$> rows = (fun u => u +:+ "@techcorp.com") <$> (username_of <$> rows))
    as ->.
  { rewrite <- list_fmap_compose. apply Forall_fmap_ext_1.
    eapply Forall_impl; [exact Hall|]. by intros rw [(_ & -> & _) _]. }
  apply NoDup_fmap_2; [|done].
  intros u1 u2 H. by eapply append_cancel_r.
Qed.

(** X6: when the day of the run is in the year 1000 or later, every
    row [generate_users] writes carries, in its last column, a date of
    the shape [YYYY-MM-DD] that lies from that day to 730 days after
    it, however the run ends. *)
Theorem X6_expiry_column (count : Z) (output_file : string) (w : world) :
  364878 <= now w ->
  exists rows : list row,
    files (snd (TestUsers.generate_users count output_file w)) !! output_file
      = Some (TestUsers.header :: rows) /\
    Forall (fun rw => iso_shape (expiry_of rw) = true /\
                      expiry_in_window (now w) rw) rows.
Proof.
  intros Hnow.
  destruct (generate_users_rows count output_file w) as (rows & Hfile & _ & Hall & _).
  exists rows. split; [done|]. eapply Forall_impl; [exact Hall|].
  intros rw [_ Hexp]. split; [|done].
  destruct Hexp as (d & -> & Hd & Hmax). apply strftime_iso. lia.
Qed.

Lemma X6_witness :
  364878 <= now (Demo.start 2) /\
  exists rows : list row,
    files (snd (TestUsers.generate_users 4 "out.csv" (Demo.start 2))) !! "out.csv"
      = Some (TestUsers.header :: rows) /\
    Forall (fun rw => iso_shape (expiry_of rw) = true /\
                      expiry_in_window (now (Demo.start 2)) rw) rows.
Proof.
  assert (364878 <= now (Demo.start 2)) as H by (by vm_compute).
  split; [exact H|]. exact (X6_expiry_column 4 "out.csv" (Demo.start 2) H).
Defined.

(** X7: [generate_users] writes to its output file only: every other
    file is after the run what it was before, however the run ends. *)
Theorem X7_other_files_untouched (count : Z) (output_file path : string) (w : world) :
  path <> output_file ->
  files (snd (TestUsers.generate_users count output_file w)) !! path
    = files w !! path.
Proof.
  intros Hne.
  destruct (generate_users_rows count output_file w) as (rows & _ & _ & _ & Hother).
  by apply Hother.
Qed.

Lemma X7_witness :
  "notes.txt" <> "out.csv" /\
  files (snd (TestUsers.generate_users 3 "out.csv" (Demo.start 0))) !! "notes.txt"
    = files (Demo.start 0) !! "notes.txt".
Proof.
  assert ("notes.txt" <> "out.csv") as H by discriminate.
  split; [exact H|].
  exact (X7_other_files_untouched 3 "out.csv" "notes.txt" (Demo.start 0) H).
Defined.

(** X8: when the names of the first [i] records have a word and the
    name of the next record, still within the count, has none, the run
    raises [IndexError] and leaves a file made of the header and the
    first [i] rows. *)
Theorem X8_blank_name_partial_file (count : Z) (output_file : string) (w : world)
    (i : nat) :
  expiry_window_exists (now w) ->
  Z.of_nat i < count ->
  (forall k, (k < i)%nat ->
     Py.all_chars Py.isspace
       (Faker.name_at (fake w) (Faker.pos (fake w) + 2 * k)%nat) = false) ->
  Py.all_chars Py.isspace
    (Faker.name_at (fake w) (Faker.pos (fake w) + 2 * i)%nat) = true ->
  exists (w' : world) (rows : list row),
    TestUsers.generate_users count output_file w = (Raise IndexError, w') /\
    files w' !! output_file = Some (TestUsers.header :: rows) /\
    length rows = i.
Proof.
  intros Hnow Hcount Hbefore Hblank.
  unfold TestUsers.generate_users, bind, open_w, writerow.
  set (w0 := set_files _ (set_files _ w)).
  destruct (users_loop_blank i (Z.to_nat count) count output_file ∅ 0 w0
              [TestUsers.header]) as (w' & rows & Hrun & Hfile & Hlen);
    [done | done | done | lia | lia | |].
  { unfold w0, set_files. simpl. by rewrite alter_insert_eq, lookup_insert_eq. }
  by exists w', rows.
Qed.

Lemma X8_witness :
  expiry_window_exists (now blank_second) /\
  Z.of_nat 1 < 3 /\
  (forall k, (k < 1)%nat ->
     Py.all_chars Py.isspace
       (Faker.name_at (fake blank_second)
          (Faker.pos (fake blank_second) + 2 * k)%nat) = false) /\
  Py.all_chars Py.isspace
    (Faker.name_at (fake blank_second)
       (Faker.pos (fake blank_second) + 2 * 1)%nat) = true /\
  exists (w' : world) (rows : list row),
    TestUsers.generate_users 3 "out.csv" blank_second = (Raise IndexError, w') /\
    files w' !! "out.csv" = Some (TestUsers.header :: rows) /\
    length rows = 1%nat.
Proof.
  assert (expiry_window_exists (now blank_second)) as H1
    by (vm_compute; split; [reflexivity | discriminate]).
  assert (Z.of_nat 1 < 3) as H2 by lia.
  assert (forall k, (k < 1)%nat ->
            Py.all_chars Py.isspace
              (Faker.name_at (fake blank_second)
                 (Faker.pos (fake blank_second) + 2 * k)%nat) = false) as H3
    by (intros [|k] Hk; [by vm_compute | lia]).
  assert (Py.all_chars Py.isspace
            (Faker.name_at (fake blank_second)
               (Faker.pos (fake blank_second) + 2 * 1)%nat) = true) as H4
    by (by vm_compute).
  split; [exact H1|]. split; [exact H2|]. split; [exact H3|]. split; [exact H4|].
  exact (X8_blank_name_partial_file 3 "out.csv" blank_second 1 H1 H2 H3 H4).
Defined.

(** X9: when every name the Faker instance gives has the same
    candidate [base], the usernames written are [base], then [base2],
    [base3] and so on: row [i] carries [base] followed by [i + 1] for
    every [i >= 1]. *)
Theorem X9_homonym_suffixes (count : Z) (output_file : string) (w : world)
    (base : string) :
  (forall k, TestUsers.generate_username (Faker.name_at (fake w) k) = Ok base) ->
  exists rows : list row,
    files (snd (TestUsers.generate_users count output_file w)) !! output_file
      = Some (TestUsers.header :: rows) /\
    forall (i : nat) (rw : row), rows !! i = Some rw ->
      username_of rw = homonym base i.
Proof.
  intros Hnames.
  destruct (TestUsers.generate_users count output_file w) as [r w'] eqn:Hrun.
  unfold TestUsers.generate_users, bind, open_w, writerow in Hrun.
  fold (bind (A := gset string) (B := unit)) in Hrun.
  match type of Hrun with
  | TestUsers.users_loop ?f ?c ?o ?u ?n ?w0 = _ =>
      destruct (users_loop_homonyms base f c o 0 n w0 w' r [TestUsers.header])
        as (rows & Hfile & Hall); [exact Hnames | exact Hrun | |]
  end.
  { unfold set_files. simpl. by rewrite alter_insert_eq, lookup_insert_eq. }
  by exists rows.
Qed.

Lemma X9_witness :
  (forall k, TestUsers.generate_username (Faker.name_at (fake all_john_smith) k)
             = Ok "jsmith") /\
  exists rows : list row,
    files (snd (TestUsers.generate_users 12 "out.csv" all_john_smith)) !! "out.csv"
      = Some (TestUsers.header :: rows) /\
    forall (i : nat) (rw : row), rows !! i = Some rw ->
      username_of rw = homonym "jsmith" i.
Proof.
  assert (forall k, TestUsers.generate_username
                      (Faker.name_at (fake all_john_smith) k) = Ok "jsmith") as H
    by (intros k; by vm_compute).
  split; [exact H|]. exact (X9_homonym_suffixes 12 "out.csv" all_john_smith "jsmith" H).
Defined.

(** X10: on a department that is not one of [DEPARTMENTS],
    [select_groups] raises [KeyError] and draws nothing: the state is
    what it was. *)
Theorem X10_select_groups_unknown (department : string) (w : world) :
  department ∉ TestUsers.DEPARTMENTS ->
  TestUsers.select_groups department w = (Raise KeyError, w).
Proof.
  intros Hd. unfold TestUsers.select_groups, bind, lift.
  assert (TestUsers.GROUPS !! department = None) as ->; [|done].
  apply not_elem_of_dom. rewrite groups_keys. by rewrite elem_of_list_to_set.
Qed.

Lemma X10_witness :
  ("Engineering" ∉ TestUsers.DEPARTMENTS) /\
  TestUsers.select_groups "Engineering" (Demo.start 0)
    = (Raise KeyError, Demo.start 0).
Proof.
  assert ("Engineering" ∉ TestUsers.DEPARTMENTS) as H
    by (apply (bool_decide_unpack _); by vm_compute).
  split; [exact H|]. exact (X10_select_groups_unknown "Engineering" (Demo.start 0) H).
Defined.

(** X11: [generate_username] of generate_users.py raises [IndexError]
    on an empty first name and draws nothing; on any other first name it
    returns one of the three formats (first and last name joined, joined
    by a full stop, or the initial and the last name), which holds no
    upper-case ASCII letter. *)
Theorem X11_users_generate_username (first_name last_name : string) (w : world) :
  (first_name = EmptyString /\
   Users.generate_username first_name last_name w = (Raise IndexError, w)) \/
  (first_name <> EmptyString /\
   exists (u : string) (w' : world),
     Users.generate_username first_name last_name w = (Ok u, w') /\
     u ∈ username_formats first_name last_name /\
     Py.all_chars (fun c => negb (Py.is_upper c)) u = true).
Proof.
  destruct (users_generate_username_outcome first_name last_name w)
    as [[? ?]|[? (u & w' & Hrun & Hu & _)]]; [by left|].
  right. split; [done|]. exists u, w'. split; [done|]. split; [done|].
  by eapply username_formats_not_upper.
Qed.

(** X12: [main] of generate_users.py writes all or nothing.  When the
    generation of a user fails, the file system is what it was; when
    [main] ends normally, [test_users.csv] holds the header and the rows
    of [NUM_USERS] users whose fields agree (full name made of first and
    last name, username in one of the three formats for these names,
    department and role of the vocabularies, start date from 731 days
    before the day of the run to that day), and no other file changed. *)
Theorem X12_users_main_all_or_nothing (w : world) :
  (fst (Users.main w) <> Ok tt /\ files (snd (Users.main w)) = files w) \/
  (fst (Users.main w) = Ok tt /\
   exists users : list Users.user,
     length users = Users.NUM_USERS /\
     Forall (user_consistent (now w)) users /\
     files (snd (Users.main w))
       = <[Users.OUTPUT_FILE := Users.fieldnames :: (Users.user_row <$> users)]>
           (files w)).
Proof.
  destruct (Users.main w) as [r w'] eqn:H. by apply main_outcome in H.
Qed.

(** X13: when no first name of the Faker instance is empty and the day
    of the run is later than day 731, [main] of generate_users.py ends
    normally and [test_users.csv] holds 51 rows: the header, then 50
    rows of 10 fields. *)
Theorem X13_users_main_total (w : world) :
  (forall k, Faker.first_name_at (fake w) k <> EmptyString) ->
  731 < now w <= Datetime.MAXORDINAL ->
  exists (w' : world) (rows : list row),
    Users.main w = (Ok tt, w') /\
    files w' !! Users.OUTPUT_FILE = Some (Users.fieldnames :: rows) /\
    length (Users.fieldnames :: rows) = 51%nat /\
    Forall (fun rw => length rw = length Users.fieldnames) rows.
Proof.
  intros Hfirst Hnow. destruct (main_total w Hfirst Hnow) as (w' & Hrun).
  destruct (main_outcome w w' (Ok tt) Hrun) as [[? _]|[_ (users & Hlen & _ & Hfiles)]];
    [done|].
  exists w', (Users.user_row <$> users). split; [done|].
  split; [by rewrite Hfiles, lookup_insert_eq|].
  split; [simpl; by rewrite length_fmap, Hlen|].
  by apply Forall_fmap, Forall_true.
Qed.

Lemma X13_witness :
  (forall k, Faker.first_name_at (fake homonyms) k <> EmptyString) /\
  731 < now homonyms <= Datetime.MAXORDINAL /\
  exists (w' : world) (rows : list row),
    Users.main homonyms = (Ok tt, w') /\
    files w' !! Users.OUTPUT_FILE = Some (Users.fieldnames :: rows) /\
    length (Users.fieldnames :: rows) = 51%nat /\
    Forall (fun rw => length rw = length Users.fieldnames) rows.
Proof.
  assert (forall k, Faker.first_name_at (fake homonyms) k <> EmptyString) as H1
    by (intros k; discriminate).
  assert (731 < now homonyms <= Datetime.MAXORDINAL) as H2
    by (vm_compute; split; [reflexivity | discriminate]).
  split; [exact H1|]. split; [exact H2|]. exact (X13_users_main_total homonyms H1 H2).
Defined.

(** X14: the sample [generate_users] prints after writing shows the
    first four lines of the file, fewer when the file is shorter; each
    is printed after two spaces and without its trailing white space
    (the line is what is printed of it followed by white space only, and
    what is printed of it does not end with a white space). *)
Theorem X14_show_sample (lines : list string) :
  show_sample 0 lines = (fun line => "  " +:+ rstrip line) <$> take 4 lines /\
  length (show_sample 0 lines) = Nat.min 4 (length lines) /\
  forall line : string,
    (exists t, line = rstrip line +:+ t /\ Py.all_chars Py.isspace t = true) /\
    (forall (p : string) (c : ascii),
       rstrip line = p +:+ String c EmptyString -> Py.isspace c = false).
Proof.
  pose proof (show_sample_take lines 0 ltac:(lia)) as H. split; [exact H|].
  split.
  - rewrite H, length_fmap, length_take. done.
  - intros line. split; [apply rstrip_spec | apply rstrip_no_trailing].
Qed.

(** ** Emails *)

Lemma split_on_none (sep : ascii) (s : string) :
  Py.all_chars (fun c => negb (Ascii.eqb c sep)) s = true -> split_on sep s = [s].
Proof.
  induction s as [|c s IH]; [done|]. cbn [Py.all_chars split_on].
  intros [Hc Hs]%andb_true_iff. apply negb_true_iff in Hc. by rewrite Hc, (IH Hs).
Qed.

Lemma split_on_app (sep : ascii) (s t : string) :
  Py.all_chars (fun c => negb (Ascii.eqb c sep)) s = true ->
  split_on sep (s +:+ String sep t) = s :: split_on sep t.
Proof.
  induction s as [|c s IH].
  - intros _. change (EmptyString +:+ String sep t) with (String sep t).
    cbn [split_on]. by rewrite Ascii.eqb_refl.
  - cbn [Py.all_chars]. intros [Hc Hs]%andb_true_iff. apply negb_true_iff in Hc.
    change (String c s +:+ String sep t) with (String c (s +:+ String sep t)).
    cbn [split_on]. by rewrite Hc, (IH Hs).
Qed.

(** X15: an email built by [generate_email] splits at its at sign into
    the username and the domain it was built from, when neither holds
    an at sign. *)
Theorem X15_generate_email_round_trip (username domain : string) :
  Py.all_chars (fun c => negb (Ascii.eqb c "@")) username = true ->
  Py.all_chars (fun c => negb (Ascii.eqb c "@")) domain = true ->
  split_on "@" (TestUsers.generate_email username domain) = [username; domain].
Proof.
  intros Hu Hd. unfold TestUsers.generate_email.
  change ("@" +:+ domain) with (String "@" domain).
  by rewrite (split_on_app "@" username domain Hu), (split_on_none "@" domain Hd).
Qed.

Lemma X15_witness :
  Py.all_chars (fun c => negb (Ascii.eqb c "@")) "jsmith2" = true /\
  Py.all_chars (fun c => negb (Ascii.eqb c "@")) "techcorp.com" = true /\
  split_on "@" (TestUsers.generate_email "jsmith2" "techcorp.com")
    = ["jsmith2"; "techcorp.com"].
Proof.
  assert (Py.all_chars (fun c => negb (Ascii.eqb c "@")) "jsmith2" = true) as H1
    by (by vm_compute).
  assert (Py.all_chars (fun c => negb (Ascii.eqb c "@")) "techcorp.com" = true) as H2
    by (by vm_compute).
  split; [exact H1|]. split; [exact H2|].
  exact (X15_generate_email_round_trip "jsmith2" "techcorp.com" H1 H2).
Defined.
